(** * measure-final: the final production measurement script

    A shallow embedding of [scripts/measure-final.ts] and the properties its
    specification states about it.

    Modelling conventions.
    - JavaScript numbers read from the measurement reports are modelled as
      exact rationals ([Q]).  The script only subtracts two of them and tests
      the sign, divides by 1024, and renders them in decimal; on finite IEEE
      doubles the sign of [a - b] is the sign of the exact difference and the
      division by a power of two is exact, so the idealisation does not change
      any branch the script takes.  The run count given on the command line is
      an integer ([Z]); [NaN] is [None].
    - Strings are byte strings (UTF-8); the script's messages are kept verbatim.
    - Effects are recorded in a trace of events; [process.exit] ends the run
      with an exit code.  What the host answers ([process.cwd], [existsSync],
      [execSync], [JSON.parse] read at the script's record type, the clock) is
      a [World] the run is a function of.  [execSync] is synchronous: a
      subprocess is one event, over when the next event begins.  The answers
      of [existsSync] are those of the moment the script asks; [mkdirSync] and
      [writeFileSync] are taken to succeed. *)

From Stdlib Require Import List String Ascii Bool ZArith QArith Qround Lia Lqa.
From Stdlib Require Import DecimalString Permutation Sorted.
Import ListNotations.

Set Warnings "-register-all".

Local Open Scope string_scope.
Local Open Scope Z_scope.

(** ** JavaScript built-ins used by the script *)

Module JS.

(** The double-quote character (code 34). *)
Definition dq : string := String (ascii_of_nat 34) EmptyString.

(** The line feed written [\n] in the source. *)
Definition nl : string := String (ascii_of_nat 10) EmptyString.

(** Decimal rendering of an integer-valued number. *)
Definition showZ (z : Z) : string := NilZero.string_of_int (Z.to_int z).

(** [Array.prototype.join]. *)
Definition join (sep : string) (l : list string) : string := String.concat sep l.

(** [String.prototype.repeat]. *)
Fixpoint repeat (s : string) (n : nat) : string :=
  match n with
  | O => ""
  | S n' => s ++ repeat s n'
  end.

(** [String.prototype.padEnd] and [padStart] with the default filler, a
    space.  Lengths are counted in bytes; they agree with JavaScript's on
    ASCII text. *)
Definition padEnd (s : string) (n : nat) : string :=
  s ++ repeat " " (n - String.length s).

Definition padStart (s : string) (n : nat) : string :=
  repeat " " (n - String.length s) ++ s.

(** [path.join] of two segments.  The script joins the working directory with
    plain names, for which no normalisation takes place. *)
Definition path_join (a b : string) : string := a ++ "/" ++ b.

(** [x || d] for an optional string: [undefined] and the empty string are
    falsy. *)
Definition or_string (x : option string) (d : string) : string :=
  match x with
  | Some s => if String.eqb s "" then d else s
  | None => d
  end.

(** [x || d] for an optional number: [undefined] and zero are falsy. *)
Definition or_number (x : option Q) (d : Q) : Q :=
  match x with
  | Some q => if Qeq_bool q 0 then d else q
  | None => d
  end.

(** [x < y] on numbers. *)
Definition ltb (x y : Q) : bool := negb (Qle_bool y x).

(** *** [parseInt(s, 10)] *)

Definition is_digit (c : ascii) : bool :=
  let n := nat_of_ascii c in (48 <=? n)%nat && (n <=? 57)%nat.

Definition digit_val (c : ascii) : Z := Z.of_nat (nat_of_ascii c) - 48.

(** Leading white space and line terminators are skipped: the ASCII ones and
    the UTF-8 encodings of U+00A0, U+1680, U+2000..U+200A, U+2028, U+2029,
    U+202F, U+205F, U+3000 and U+FEFF. *)
Definition ascii_space (c : ascii) : bool :=
  let n := nat_of_ascii c in
  ((9 <=? n)%nat && (n <=? 13)%nat) || (n =? 32)%nat.

Definition wide_space (a b c : nat) : bool :=
  ((a =? 225) && (b =? 154) && (c =? 128))%nat
  || ((a =? 226) && (b =? 128) && (128 <=? c) && (c <=? 138))%nat
  || ((a =? 226) && (b =? 128) && ((c =? 168) || (c =? 169) || (c =? 175)))%nat
  || ((a =? 226) && (b =? 129) && (c =? 159))%nat
  || ((a =? 227) && (b =? 128) && (c =? 128))%nat
  || ((a =? 239) && (b =? 187) && (c =? 191))%nat.

Fixpoint skip_space (s : string) : string :=
  match s with
  | String a r1 =>
      if ascii_space a then skip_space r1
      else match r1 with
           | String b r2 =>
               if ((nat_of_ascii a =? 194) && (nat_of_ascii b =? 160))%nat
               then skip_space r2
               else match r2 with
                    | String c r3 =>
                        if wide_space (nat_of_ascii a) (nat_of_ascii b) (nat_of_ascii c)
                        then skip_space r3
                        else s
                    | EmptyString => s
                    end
           | EmptyString => s
           end
  | EmptyString => s
  end.

(** The value of the longest prefix of decimal digits, [None] when there is
    no digit at the front. *)
Fixpoint digits_from (acc : Z) (s : string) : Z :=
  match s with
  | String c r => if is_digit c then digits_from (10 * acc + digit_val c) r else acc
  | EmptyString => acc
  end.

Definition leading_digits (s : string) : option Z :=
  match s with
  | String c _ => if is_digit c then Some (digits_from 0 s) else None
  | EmptyString => None
  end.

Definition parseInt (s : string) : option Z :=
  match skip_space s with
  | String "-" r => option_map Z.opp (leading_digits r)
  | String "+" r => leading_digits r
  | t => leading_digits t
  end.

(** *** Rendering numbers *)

(** The exact decimal expansion of a fraction [r / d] with [0 <= r < d],
    most significant digit first, cut after [fuel] digits. *)
Fixpoint frac_digits (fuel : nat) (r d : Z) : string :=
  match fuel with
  | O => ""
  | S fuel' =>
      if r =? 0 then ""
      else showZ ((10 * r) / d) ++ frac_digits fuel' ((10 * r) mod d) d
  end.

(** [Number::toString] on the rationals of the model: integers print as
    integers, other values as their decimal expansion (cut after 17
    fractional digits when it does not end). *)
Definition Number_toString (q : Q) : string :=
  let n := Qnum q in
  let d := Z.pos (Qden q) in
  let a := Z.abs n in
  let body :=
    if a mod d =? 0 then showZ (a / d)
    else showZ (a / d) ++ "." ++ frac_digits 17 (a mod d) d in
  if n <? 0 then "-" ++ body else body.

(** [Number.prototype.toFixed(f)]: the integer [n] with [n / 10^f] nearest to
    the magnitude, the larger one on a tie, printed with [f] fractional
    digits; very large values print as [toString] does. *)
Definition toFixed (q : Q) (f : nat) : string :=
  let n := Qnum q in
  let d := Z.pos (Qden q) in
  let a := Z.abs n in
  if 10 ^ 21 * d <=? a then Number_toString q
  else
    let p := 10 ^ Z.of_nat f in
    let m := (2 * a * p + d) / (2 * d) in
    let ds := showZ m in
    let ds := repeat "0" (S f - String.length ds) ++ ds in
    let k := (String.length ds - f)%nat in
    let body :=
      match f with
      | O => ds
      | _ => substring 0 k ds ++ "." ++ substring k f ds
      end in
    if n <? 0 then "-" ++ body else body.

End JS.

(** ** Sorting, as [Array.prototype.sort] does with a comparator

    The sort is stable; an element moves in front of the elements the
    comparator places strictly after it.  This is the insertion form of it. *)

Module JSArray.

Fixpoint insert {A : Type} (cmp : A -> A -> Q) (x : A) (l : list A) : list A :=
  match l with
  | [] => [x]
  | y :: r => if JS.ltb (cmp y x) 0 then y :: insert cmp x r else x :: y :: r
  end.

Fixpoint sort {A : Type} (cmp : A -> A -> Q) (l : list A) : list A :=
  match l with
  | [] => []
  | x :: r => insert cmp x (sort cmp r)
  end.

End JSArray.

(** ** [JSON.stringify(value, null, 2)] *)

Module JSON.

Inductive value : Type :=
| Num (q : Q)
| Str (s : string)
| Arr (items : list value)
| Obj (fields : list (string * value)).

Definition hex (n : nat) : string := substring n 1 "0123456789abcdef".

Definition escape_char (c : ascii) : string :=
  let n := nat_of_ascii c in
  if (n =? 34)%nat then "\" ++ JS.dq
  else if (n =? 92)%nat then "\\"
  else if (n =? 8)%nat then "\b"
  else if (n =? 9)%nat then "\t"
  else if (n =? 10)%nat then "\n"
  else if (n =? 12)%nat then "\f"
  else if (n =? 13)%nat then "\r"
  else if (n <? 32)%nat then "\u00" ++ hex (n / 16) ++ hex (n mod 16)
  else String c EmptyString.

Fixpoint escape (s : string) : string :=
  match s with
  | EmptyString => ""
  | String c r => escape_char c ++ escape r
  end.

Definition quote (s : string) : string := JS.dq ++ escape s ++ JS.dq.

Fixpoint render (ind : string) (v : value) : string :=
  let ind' := ind ++ "  " in
  match v with
  | Num q => JS.Number_toString q
  | Str s => quote s
  | Arr [] => "[]"
  | Arr items =>
      "[" ++ JS.nl
      ++ JS.join ("," ++ JS.nl) (map (fun x => ind' ++ render ind' x) items)
      ++ JS.nl ++ ind ++ "]"
  | Obj [] => "{}"
  | Obj fields =>
      "{" ++ JS.nl
      ++ JS.join ("," ++ JS.nl)
           (map (fun kv => ind' ++ quote (fst kv) ++ ": " ++ render ind' (snd kv)) fields)
      ++ JS.nl ++ ind ++ "}"
  end.

Definition stringify (v : value) : string := render "" v.

End JSON.

(** ** Data model (lines 55-94 of the script) *)

Record StatisticalSummary : Type := {
  mean : Q;
  median : Q;
  stddev : Q;
  min : Q;
  max : Q;
  runs : Q
}.

Inductive Page : Type := home | board.

Definition Page_eqb (p q : Page) : bool :=
  match p, q with
  | home, home | board, board => true
  | _, _ => false
  end.

Definition Page_name (p : Page) : string :=
  match p with
  | home => "home"
  | board => "board"
  end.

(** [networkCondition] is not declared by the interface; [main] reads it from
    the first record all the same, so it is an optional property here. *)
Record AggregatedStats : Type := {
  framework : string;
  page : Page;
  jsTransferred : StatisticalSummary;
  jsUncompressed : StatisticalSummary;
  compressionRatio : Q;
  performanceScore : StatisticalSummary;
  fcp : StatisticalSummary;
  lcp : StatisticalSummary;
  tbt : StatisticalSummary;
  cls : StatisticalSummary;
  si : StatisticalSummary;
  compressionType : string;
  chromeVersion : string;
  measurementTimestamp : string;
  networkCondition : option string
}.

Record Framework : Type := {
  name : string;
  dir : string;
  buildCheck : list string
}.

Definition FRAMEWORKS : list Framework := [
  {| name := "Next.js"; dir := "kanban-nextjs"; buildCheck := [".next"; "dist"] |};
  {| name := "Nuxt"; dir := "kanban-nuxt"; buildCheck := [".output"; "dist"] |};
  {| name := "Analog"; dir := "kanban-analog"; buildCheck := ["dist"] |};
  {| name := "SolidStart"; dir := "kanban-solidstart"; buildCheck := [".output"; "dist"] |};
  {| name := "SvelteKit"; dir := "kanban-sveltekit"; buildCheck := [".svelte-kit"; "build"] |};
  {| name := "Qwik"; dir := "kanban-qwikcity"; buildCheck := ["dist"] |};
  {| name := "Astro"; dir := "kanban-htmx"; buildCheck := ["dist"] |};
  {| name := "TanStack Start"; dir := "kanban-tanstack"; buildCheck := [".output"; "dist"] |};
  {| name := "TanStack Start + Solid"; dir := "kanban-tanstack-solid";
     buildCheck := [".output"; "dist"] |};
  {| name := "Marko"; dir := "kanban-marko"; buildCheck := ["dist"; "build"] |};
  {| name := "Go-Datastar"; dir := "kanban-go-datastar"; buildCheck := ["bin"] |};
  {| name := "Hono-Datastar"; dir := "kanban-hono-datastar"; buildCheck := ["dist"] |}
].

(** The JSON form of the records, properties in declaration order. *)
Definition summary_json (s : StatisticalSummary) : JSON.value :=
  JSON.Obj [
    ("mean", JSON.Num (mean s)); ("median", JSON.Num (median s));
    ("stddev", JSON.Num (stddev s)); ("min", JSON.Num (min s));
    ("max", JSON.Num (max s)); ("runs", JSON.Num (runs s)) ].

Definition stats_json (r : AggregatedStats) : JSON.value :=
  JSON.Obj ([
    ("framework", JSON.Str (framework r));
    ("page", JSON.Str (Page_name (page r)));
    ("jsTransferred", summary_json (jsTransferred r));
    ("jsUncompressed", summary_json (jsUncompressed r));
    ("compressionRatio", JSON.Num (compressionRatio r));
    ("performanceScore", summary_json (performanceScore r));
    ("fcp", summary_json (fcp r));
    ("lcp", summary_json (lcp r));
    ("tbt", summary_json (tbt r));
    ("cls", summary_json (cls r));
    ("si", summary_json (si r));
    ("compressionType", JSON.Str (compressionType r));
    ("chromeVersion", JSON.Str (chromeVersion r));
    ("measurementTimestamp", JSON.Str (measurementTimestamp r)) ]
    ++ match networkCondition r with
       | Some n => [("networkCondition", JSON.Str n)]
       | None => []
       end).

(** ** The host and the effects of a run *)

Inductive Result (A : Type) : Type :=
| Ok (a : A)
| Throw (error : string).

Arguments Ok {A} a.
Arguments Throw {A} error.

(** What the host answers.  [JSON_parse] is [JSON.parse] read at the type the
    script casts its result to, [AggregatedStats[]]; it throws on anything
    else.  [toISOString_now n] is the [n]-th reading of the clock. *)
Record World : Type := {
  cwd : string;
  existsSync : string -> bool;
  execSync : string -> Result string;
  JSON_parse : string -> Result (list AggregatedStats);
  toISOString_now : nat -> string
}.

Inductive Event : Type :=
| console_error (msg : string)
| fs_existsSync (path : string)
| child_execSync (cmd : string)
| fs_mkdirSync (path : string)
| fs_writeFileSync (path data : string).

Inductive Outcome (A : Type) : Type :=
| Done (a : A)
| Exited (code : Z).

Arguments Done {A} a.
Arguments Exited {A} code.

(** A computation yields the events it performed and how it ended. *)
Definition IO (A : Type) : Type := list Event * Outcome A.

Definition ret {A : Type} (a : A) : IO A := ([], Done a).

Definition bind {A B : Type} (m : IO A) (k : A -> IO B) : IO B :=
  match m with
  | (t, Done a) => let (t', o) := k a in ((t ++ t')%list, o)
  | (t, Exited c) => (t, Exited c)
  end.

Definition emit (e : Event) : IO unit := ([e], Done tt).

Definition process_exit {A : Type} (code : Z) : IO A := ([], Exited code).

Definition trace {A : Type} (m : IO A) : list Event := fst m.

Definition outcome {A : Type} (m : IO A) : Outcome A := snd m.

Declare Scope io_scope.
Delimit Scope io_scope with io.
Notation "x <- m ;; k" := (bind m (fun x => k))
  (at level 61, m at next level, right associativity) : io_scope.
Notation "m ;; k" := (bind m (fun _ => k))
  (at level 61, right associativity) : io_scope.
Local Open Scope io_scope.

(** [for (const x of l) body], the loop state passed along. *)
Fixpoint forOf {A S : Type} (body : S -> A -> IO S) (l : list A) (s : S) : IO S :=
  match l with
  | [] => ret s
  | x :: r => s' <- body s x ;; forOf body r s'
  end.

(** ** The script *)

Definition log (msg : string) : IO unit := emit (console_error msg).

(** [checkBuildExists] (lines 96-106): the first build directory that exists
    answers [true]; the directories after it are not probed. *)
Fixpoint checkBuildDirs (w : World) (projectRoot : string) (dirs : list string)
  : IO bool :=
  match dirs with
  | [] => ret false
  | buildDir :: rest =>
      let p := JS.path_join projectRoot buildDir in
      emit (fs_existsSync p) ;;
      if existsSync w p then ret true else checkBuildDirs w projectRoot rest
  end.

Definition checkBuildExists (w : World) (fw : Framework) : IO bool :=
  let projectRoot := JS.path_join (cwd w) (dir fw) in
  checkBuildDirs w projectRoot (buildCheck fw).

(** [formatKB] (lines 108-110). *)
Definition formatKB (bytes : Q) : string := JS.toFixed (bytes / 1024) 1.

(** The comparator of every [sort] call in the script. *)
Definition byRawMedian (a b : AggregatedStats) : Q :=
  median (jsUncompressed a) - median (jsUncompressed b).

(** The records of one page, smallest raw bundle first (lines 113-114, and
    again at 272-274, 282-284, 303-304 and 315-316). *)
Definition pageSorted (results : list AggregatedStats) (pg : Page)
  : list AggregatedStats :=
  JSArray.sort byRawMedian (filter (fun r => Page_eqb (page r) pg) results).

(** [generateMarkdownTable] (lines 112-141), in three parts: the text before
    the loop, the row the loop adds for a record, and the text after it. *)
Definition tableHead (pg : Page) : string :=
  "## " ++ (match pg with home => "Home Page" | board => "Board Page" end)
  ++ " Performance" ++ JS.nl ++ JS.nl
  ++ "Sorted by raw bundle size (smallest first):" ++ JS.nl ++ JS.nl
  ++ "| Framework | Raw (kB) | Compressed (kB) | Ratio | Perf Score | FCP (ms) | LCP (ms) |"
  ++ JS.nl
  ++ "|-----------|----------|----------------|-------|------------|----------|----------|"
  ++ JS.nl.

Definition tableRow (r : AggregatedStats) : string :=
  let raw := formatKB (median (jsUncompressed r)) ++ " ±"
             ++ formatKB (stddev (jsUncompressed r)) in
  let compressed := formatKB (median (jsTransferred r)) ++ " ±"
                    ++ formatKB (stddev (jsTransferred r)) in
  let ratio := JS.Number_toString (compressionRatio r) ++ "%" in
  let perf := JS.Number_toString (median (performanceScore r)) ++ " ±"
              ++ JS.toFixed (stddev (performanceScore r)) 1 in
  let fcp_ := JS.Number_toString (median (fcp r)) ++ " ±"
              ++ JS.toFixed (stddev (fcp r)) 0 in
  let lcp_ := JS.Number_toString (median (lcp r)) ++ " ±"
              ++ JS.toFixed (stddev (lcp r)) 0 in
  "| " ++ framework r ++ " | " ++ raw ++ " | " ++ compressed ++ " | " ++ ratio
  ++ " | " ++ perf ++ " | " ++ fcp_ ++ " | " ++ lcp_ ++ " |" ++ JS.nl.

Definition tableFoot (sortedByBundle : list AggregatedStats) : string :=
  let first := hd_error sortedByBundle in
  JS.nl
  ++ "**Explanation:**" ++ JS.nl
  ++ "- **Raw**: Uncompressed bundle size (actual code volume, more consistent for comparison)"
  ++ JS.nl
  ++ "- **Compressed**: Bytes transferred over network (what users download)" ++ JS.nl
  ++ "- **Ratio**: Percentage saved by compression (higher is better compression)" ++ JS.nl
  ++ "- Values show median ±std dev from "
  ++ JS.Number_toString
       (JS.or_number (option_map (fun r => runs (jsTransferred r)) first) 3)
  ++ " measurement runs" ++ JS.nl
  ++ "- Compression type: "
  ++ JS.or_string (option_map compressionType first) "gzip" ++ JS.nl ++ JS.nl.

Definition generateMarkdownTable (results : list AggregatedStats) (pg : Page)
  : string :=
  let sortedByBundle := pageSorted results pg in
  let markdown := tableHead pg in
  let markdown :=
    fold_left (fun markdown r => markdown ++ tableRow r) sortedByBundle markdown in
  markdown ++ tableFoot sortedByBundle.

(** Argument parsing (lines 149-166).  The loop index walks the argument
    list; a flag that has a value after it consumes the value too, a flag in
    last position is passed over like any other word. *)
Fixpoint parseArgs (args : list string) (numRuns : Z) (networkCondition : string)
  : IO (Z * string) :=
  match args with
  | [] => ret (numRuns, networkCondition)
  | a :: rest =>
      match rest with
      | v :: rest' =>
          if String.eqb a "--runs" then
            match JS.parseInt v with
            | None =>
                log "❌ Error: --runs must be a positive number" ;; process_exit 1
            | Some n =>
                if n <? 1 then
                  log "❌ Error: --runs must be a positive number" ;; process_exit 1
                else parseArgs rest' n networkCondition
            end
          else if String.eqb a "--network" then
            if existsb (String.eqb v) ["4g"; "3g"; "slow-3g"] then
              parseArgs rest' numRuns v
            else
              log ("❌ Error: Invalid network condition " ++ JS.dq ++ v ++ JS.dq) ;;
              log "Available conditions: 4g, 3g, slow-3g" ;;
              process_exit 1
          else parseArgs rest numRuns networkCondition
      | [] => ret (numRuns, networkCondition)
      end
  end.

(** Build validation (lines 175-184): every framework is checked, the names
    of those without a build are collected. *)
Definition validateOne (w : World) (missingBuilds : list string) (fw : Framework)
  : IO (list string) :=
  found <- checkBuildExists w fw ;;
  if found then
    log ("   ✅ " ++ name fw ++ ": Build found") ;; ret missingBuilds
  else
    log ("   ❌ " ++ name fw ++ ": Build not found") ;;
    ret (missingBuilds ++ [name fw])%list.

(** One turn of the measurement loop (lines 198-216). *)
Definition measureCommand (fw : Framework) (numRuns : Z) (networkCondition : string)
  : string :=
  "tsx scripts/measure-single.ts " ++ JS.dq ++ name fw ++ JS.dq
  ++ " --runs " ++ JS.showZ numRuns ++ " --network " ++ networkCondition.

(** The body of the [try] block as a value: the parsed records, or what was
    thrown by [execSync] or by [JSON.parse]. *)
Definition attempt (w : World) (cmd : string) : Result (list AggregatedStats) :=
  match execSync w cmd with
  | Ok output => JSON_parse w output
  | Throw error => Throw error
  end.

Definition measureOne (w : World) (numRuns : Z) (networkCondition : string)
    (st : list AggregatedStats * list string) (fw : Framework)
  : IO (list AggregatedStats * list string) :=
  let (allResults, failedFrameworks) := st in
  log (JS.nl ++ JS.repeat "=" 60) ;;
  log ("Measuring " ++ name fw ++ "...") ;;
  log (JS.repeat "=" 60) ;;
  let cmd := measureCommand fw numRuns networkCondition in
  emit (child_execSync cmd) ;;
  match attempt w cmd with
  | Ok results => ret ((allResults ++ results)%list, failedFrameworks)
  | Throw error =>
      log ("❌ Failed to measure " ++ name fw ++ ": " ++ error) ;;
      ret (allResults, (failedFrameworks ++ [name fw])%list)
  end.

(** The three documents the run writes (lines 227-296). *)
Definition firstOf {A : Type} (f : AggregatedStats -> A)
    (allResults : list AggregatedStats) : option A :=
  option_map f (hd_error allResults).

Definition resultsData (timestamp : string) (numRuns : Z) (networkCondition_ : string)
    (allResults : list AggregatedStats) : JSON.value :=
  JSON.Obj [
    ("metadata", JSON.Obj [
       ("timestamp", JSON.Str timestamp);
       ("runsPerPage", JSON.Num (inject_Z numRuns));
       ("measurementType", JSON.Str "cold-load");
       ("networkCondition",
          JSON.Str (JS.or_string
                      (match hd_error allResults with
                       | Some r => networkCondition r
                       | None => None
                       end) networkCondition_));
       ("chromeVersion",
          JSON.Str (JS.or_string (firstOf chromeVersion allResults) "unknown"));
       ("compressionType",
          JSON.Str (JS.or_string (firstOf compressionType allResults) "gzip")) ]);
    ("results", JSON.Arr (map stats_json allResults)) ].

Definition failedSection (failedFrameworks : list string) : string :=
  match failedFrameworks with
  | [] => ""
  | _ =>
      "## Failed Measurements" ++ JS.nl ++ JS.nl
      ++ "The following frameworks failed to measure: "
      ++ JS.join ", " failedFrameworks ++ JS.nl ++ JS.nl
  end.

(** The report up to the two tables (lines 246-258); the section on failed
    measurements is appended to it when there are any (lines 260-263). *)
Definition markdownBody (timestamp : string) (numRuns : Z)
    (allResults : list AggregatedStats) : string :=
  "# Framework Performance Comparison" ++ JS.nl ++ JS.nl
  ++ "*Measured: " ++ timestamp ++ "*" ++ JS.nl ++ JS.nl
  ++ "## Methodology" ++ JS.nl ++ JS.nl
  ++ "- **Runs per page**: " ++ JS.showZ numRuns ++ JS.nl
  ++ "- **Measurement type**: Cold-load (cache cleared between runs)" ++ JS.nl
  ++ "- **Device**: Mobile (Pixel 5 emulation)" ++ JS.nl
  ++ "- **Network**: 4G throttling (10 Mbps down, 40ms RTT)" ++ JS.nl
  ++ "- **CPU**: 1x (no throttling, to isolate bundle size impact)" ++ JS.nl
  ++ "- **Lighthouse version**: "
  ++ JS.or_string (firstOf chromeVersion allResults) "unknown" ++ JS.nl
  ++ "- **Compression**: "
  ++ JS.or_string (firstOf compressionType allResults) "gzip" ++ JS.nl ++ JS.nl
  ++ generateMarkdownTable allResults board
  ++ generateMarkdownTable allResults home.

Definition markdownReport (timestamp : string) (numRuns : Z)
    (allResults : list AggregatedStats) (failedFrameworks : list string) : string :=
  markdownBody timestamp numRuns allResults ++ failedSection failedFrameworks.

Definition legacyEntry (r : AggregatedStats) : JSON.value :=
  JSON.Obj [
    ("framework", JSON.Str (framework r));
    ("jsUncompressed", JSON.Num (median (jsUncompressed r)));
    ("jsTransferred", JSON.Num (median (jsTransferred r)));
    ("compressionRatio", JSON.Num (compressionRatio r));
    ("requests", JSON.Num 0) ].

Definition legacySummary (timestamp : string) (allResults : list AggregatedStats)
  : JSON.value :=
  JSON.Obj [
    ("timestamp", JSON.Str timestamp);
    ("note", JSON.Str
       "Bundle sizes use raw (uncompressed) as primary, compressed in parentheses");
    ("boardPage", JSON.Arr (map legacyEntry (pageSorted allResults board)));
    ("homePage", JSON.Arr (map legacyEntry (pageSorted allResults home))) ].

(** A line of the closing summary (lines 307-313 and 319-325). *)
Definition summaryLine (r : AggregatedStats) : string :=
  let raw := formatKB (median (jsUncompressed r)) in
  let compressed := formatKB (median (jsTransferred r)) in
  let ratio := JS.Number_toString (compressionRatio r) in
  let perf := JS.Number_toString (median (performanceScore r)) in
  "   " ++ JS.padEnd (framework r) 23 ++ " " ++ JS.padStart raw 6 ++ " kB raw ("
  ++ JS.padStart compressed 5 ++ " kB compressed, " ++ ratio ++ "%) | Perf: " ++ perf.

Definition logLines (rs : list AggregatedStats) : IO unit :=
  forOf (fun _ r => log (summaryLine r)) rs tt.

(** Report generation and the closing summary (lines 218-331). *)
Definition report (w : World) (numRuns : Z) (networkCondition_ : string)
    (allResults : list AggregatedStats) (failedFrameworks : list string) : IO unit :=
  log (JS.nl ++ JS.nl ++ "📊 Generating Reports..." ++ JS.nl) ;;
  let metricsDir := JS.path_join (cwd w) "metrics" in
  emit (fs_existsSync metricsDir) ;;
  (if existsSync w metricsDir then ret tt else emit (fs_mkdirSync metricsDir)) ;;
  let resultsPath := JS.path_join metricsDir "final-measurements.json" in
  emit (fs_writeFileSync resultsPath
          (JSON.stringify
             (resultsData (toISOString_now w 0) numRuns networkCondition_ allResults))) ;;
  log ("✅ JSON results: " ++ resultsPath) ;;
  let markdownPath := JS.path_join metricsDir "final-measurements.md" in
  emit (fs_writeFileSync markdownPath
          (markdownReport (toISOString_now w 1) numRuns allResults failedFrameworks)) ;;
  log ("✅ Markdown report: " ++ markdownPath) ;;
  let legacyPath := JS.path_join metricsDir "bundle-summary.json" in
  emit (fs_writeFileSync legacyPath
          (JSON.stringify (legacySummary (toISOString_now w 2) allResults))) ;;
  log ("✅ Legacy format: " ++ legacyPath) ;;
  log (JS.nl ++ JS.nl ++ JS.repeat "=" 60) ;;
  log "📊 MEASUREMENT SUMMARY" ;;
  log (JS.repeat "=" 60) ;;
  log (JS.nl ++ "📋 Board Page Bundle Sizes (smallest to largest by raw size):") ;;
  logLines (pageSorted allResults board) ;;
  log (JS.nl ++ "🏠 Home Page Bundle Sizes (smallest to largest by raw size):") ;;
  logLines (pageSorted allResults home) ;;
  (match failedFrameworks with
   | [] => ret tt
   | _ => log (JS.nl ++ "❌ Failed: " ++ JS.join ", " failedFrameworks)
   end) ;;
  log (JS.nl ++ "✅ All measurements complete!" ++ JS.nl).

(** Validation and measurement, once the arguments are known
    (lines 168-216), followed by the reports. *)
Definition validateBuilds (w : World) : IO unit :=
  log "📋 Validating builds..." ;;
  missingBuilds <- forOf (validateOne w) FRAMEWORKS [] ;;
  match missingBuilds with
  | [] => log (JS.nl ++ "✅ All builds validated" ++ JS.nl)
  | _ =>
      log (JS.nl ++ "❌ Error: Missing builds for: " ++ JS.join ", " missingBuilds) ;;
      log ("   Please run " ++ JS.dq ++ "npm run build" ++ JS.dq
           ++ " in each framework directory first.") ;;
      process_exit 1
  end.

Definition measureAll (w : World) (numRuns : Z) (networkCondition_ : string)
  : IO (list AggregatedStats * list string) :=
  forOf (measureOne w numRuns networkCondition_) FRAMEWORKS ([], []).

(** [main] (lines 143-332); [argv] is [process.argv].  [runWith] is the part
    of it that follows the parsing of the arguments. *)
Definition runWith (w : World) (numRuns : Z) (networkCondition_ : string) : IO unit :=
  log (JS.nl ++ "🚀 Final Production Measurements") ;;
  log ("   Runs per page: " ++ JS.showZ numRuns) ;;
  log ("   Network: " ++ networkCondition_) ;;
  log ("   Frameworks: " ++ JS.showZ (Z.of_nat (List.length FRAMEWORKS)) ++ JS.nl) ;;
  validateBuilds w ;;
  st <- measureAll w numRuns networkCondition_ ;;
  let (allResults, failedFrameworks) := st in
  report w numRuns networkCondition_ allResults failedFrameworks.

Definition main (w : World) (argv : list string) : IO unit :=
  let args := skipn 2 argv in
  cfg <- parseArgs args 10 "4g" ;;
  let (numRuns, networkCondition_) := cfg in
  runWith w numRuns networkCondition_.

(** ** Reading a trace *)

(** The subprocess commands launched, in order. *)
Definition commands (t : list Event) : list string :=
  flat_map (fun e => match e with child_execSync c => [c] | _ => [] end) t.

(** The files written, in order. *)
Definition writes (t : list Event) : list (string * string) :=
  flat_map (fun e => match e with fs_writeFileSync p d => [(p, d)] | _ => [] end) t.

Definition isLog (e : Event) : Prop := exists msg, e = console_error msg.

(** Only console output and file-system probes: nothing launched, nothing
    written. *)
Definition isQuiet (e : Event) : Prop :=
  match e with
  | console_error _ | fs_existsSync _ => True
  | _ => False
  end.

(** ** The statistics of the measurement subprocess *)

Module MeasureSingle.

Section Stats.

(** Modelled from the spec: [scripts/measure-single.ts], which computes the
    statistical summaries, is not among the sources.  The spec names its
    formulas: interquartile-range trimming, the mean, the median ("the middle
    value of a sorted trimmed sample") and the population standard deviation,
    with every summary field computed from the trimmed sample set.  It fixes
    neither the quantile estimator nor the width of the fences, so both are
    left open here, as is the square root. *)
Variable quantile : Q -> list Q -> Q.
Variable fence : Q.
Variable sqrt : Q -> Q.

Definition sorted (samples : list Q) : list Q :=
  JSArray.sort (fun a b => a - b)%Q samples.

Definition lowerFence (samples : list Q) : Q :=
  let q1 := quantile (1 # 4) (sorted samples) in
  let q3 := quantile (3 # 4) (sorted samples) in
  (q1 - fence * (q3 - q1))%Q.

Definition upperFence (samples : list Q) : Q :=
  let q1 := quantile (1 # 4) (sorted samples) in
  let q3 := quantile (3 # 4) (sorted samples) in
  (q3 + fence * (q3 - q1))%Q.

Definition removeOutliers (samples : list Q) : list Q :=
  filter (fun x => Qle_bool (lowerFence samples) x && Qle_bool x (upperFence samples))
         samples.

Definition sum (l : list Q) : Q := fold_right Qplus 0%Q l.

Definition count (l : list Q) : Q := inject_Z (Z.of_nat (List.length l)).

Definition meanOf (l : list Q) : Q := (sum l / count l)%Q.

Definition medianOf (l : list Q) : Q :=
  let s := sorted l in
  let n := List.length s in
  if Nat.even n
  then ((nth (n / 2 - 1) s 0 + nth (n / 2) s 0) / 2)%Q
  else nth (n / 2) s 0%Q.

Definition varianceOf (l : list Q) : Q :=
  let m := meanOf l in
  (sum (map (fun x => (x - m) * (x - m)) l) / count l)%Q.

Definition summarize (samples : list Q) : StatisticalSummary :=
  let trimmed := removeOutliers samples in
  {| mean := meanOf trimmed;
     median := medianOf trimmed;
     stddev := sqrt (varianceOf trimmed);
     min := hd 0%Q (sorted trimmed);
     max := last (sorted trimmed) 0%Q;
     runs := count trimmed |}.

End Stats.

(** A quantile estimator for the examples: the sample at the floor of the
    fractional rank. *)
Definition floorRank (p : Q) (s : list Q) : Q :=
  nth (Z.to_nat (Qfloor (p * inject_Z (Z.of_nat (List.length s) - 1)))) s 0%Q.

Definition sampleRuns : list Q := [10; 12; 11; 13; 1000]%Q.

End MeasureSingle.

(** ** Vocabulary of the properties *)

(** A run count that is not accepted. *)
Definition badRuns (v : string) : Prop :=
  JS.parseInt v = None \/ exists k, JS.parseInt v = Some k /\ k < 1.

(** A network condition that is not accepted. *)
Definition badNetwork (v : string) : Prop := ~ In v ["4g"; "3g"; "slow-3g"].

(** The path [checkBuildExists] probes for a build directory. *)
Definition buildPath (w : World) (fw : Framework) (d : string) : string :=
  JS.path_join (JS.path_join (cwd w) (dir fw)) d.

(** None of the framework's build directories exists. *)
Definition buildMissing (w : World) (fw : Framework) : Prop :=
  forall d, In d (buildCheck fw) -> existsSync w (buildPath w fw d) = false.

(** At least one of them exists. *)
Definition buildPresent (w : World) (fw : Framework) : Prop :=
  exists d, In d (buildCheck fw) /\ existsSync w (buildPath w fw d) = true.

Definition hasBuild (w : World) (fw : Framework) : bool :=
  existsb (fun d => existsSync w (buildPath w fw d)) (buildCheck fw).

(** The list of missing builds after a framework has been checked. *)
Definition noteMissing (w : World) (missingBuilds : list string) (fw : Framework)
  : list string :=
  if hasBuild w fw then missingBuilds else (missingBuilds ++ [name fw])%list.

(** The message logged for a framework whose build was found. *)
Definition foundLog (fw : Framework) : Event :=
  console_error ("   ✅ " ++ name fw ++ ": Build found").

(** What the subprocess of a framework comes to: its records, or nothing
    when it failed; and whether it failed. *)
Definition recordsOf (w : World) (n : Z) (net : string) (fw : Framework)
  : list AggregatedStats :=
  match attempt w (measureCommand fw n net) with
  | Ok rs => rs
  | Throw _ => []
  end.

Definition failed (w : World) (n : Z) (net : string) (fw : Framework) : bool :=
  match attempt w (measureCommand fw n net) with
  | Ok _ => false
  | Throw _ => true
  end.

(** The message logged for a framework whose subprocess failed. *)
Definition failureLog (fw : Framework) (error : string) : Event :=
  console_error ("❌ Failed to measure " ++ name fw ++ ": " ++ error).

(** The events of one turn of the measurement loop: the banner, the launch
    of the subprocess and, when it failed, the failure message. *)
Definition turn (w : World) (n : Z) (net : string) (fw : Framework) : list Event :=
  [ console_error (JS.nl ++ JS.repeat "=" 60);
    console_error ("Measuring " ++ name fw ++ "...");
    console_error (JS.repeat "=" 60);
    child_execSync (measureCommand fw n net) ]
  ++ match attempt w (measureCommand fw n net) with
     | Ok _ => []
     | Throw error => [failureLog fw error]
     end.

(** The events of a loop whose turns always complete, and the state it
    ends in. *)
Fixpoint loopTrace {A S : Type} (body : S -> A -> IO S) (next : S -> A -> S)
    (l : list A) (s : S) : list Event :=
  match l with
  | [] => []
  | x :: r => trace (body s x) ++ loopTrace body next r (next s x)
  end.

(** The loop state after a turn, and what the loop has gathered once every
    framework had its turn: the records of the subprocesses that succeeded
    and the names of the frameworks whose subprocess failed. *)
Definition advance (w : World) (n : Z) (net : string)
    (st : list AggregatedStats * list string) (fw : Framework)
  : list AggregatedStats * list string :=
  ((fst st ++ recordsOf w n net fw)%list,
   (snd st ++ (if failed w n net fw then [name fw] else []))%list).

Definition allResults (w : World) (n : Z) (net : string) : list AggregatedStats :=
  flat_map (recordsOf w n net) FRAMEWORKS.

Definition failedFrameworks (w : World) (n : Z) (net : string) : list string :=
  map name (filter (failed w n net) FRAMEWORKS).











(** The paths of the three reports. *)
Definition metricsPath (w : World) (file : string) : string :=
  JS.path_join (JS.path_join (cwd w) "metrics") file.

(** ** Sample hosts

    [sampleWorld] has every build in place and no metrics directory yet; the
    subprocess of Nuxt fails, the others print their framework's name, which
    is read back as a board record and a home record.  [bareWorld] has no
    build at all. *)
Definition sampleSummary (m : Q) : StatisticalSummary :=
  {| mean := m; median := m; stddev := 0; min := m; max := m; runs := 10 |}.

Definition sampleStats (fwname : string) (pg : Page) (raw : Q) : AggregatedStats :=
  {| framework := fwname;
     page := pg;
     jsTransferred := sampleSummary (raw / 3);
     jsUncompressed := sampleSummary raw;
     compressionRatio := 67;
     performanceScore := sampleSummary 98;
     fcp := sampleSummary 850;
     lcp := sampleSummary 1200;
     tbt := sampleSummary 0;
     cls := sampleSummary 0;
     si := sampleSummary 900;
     compressionType := "br";
     chromeVersion := "131.0.0.0";
     measurementTimestamp := "2025-01-01T00:00:00.000Z";
     networkCondition := None |}.

Definition sampleExec (cmd : string) : Result string :=
  match find (fun fw => String.eqb cmd (measureCommand fw 10 "4g")) FRAMEWORKS with
  | Some fw =>
      if String.eqb (name fw) "Nuxt" then Throw "Error: Command failed"
      else Ok (name fw)
  | None => Throw "Error: unknown command"
  end.

Definition sampleParse (output : string) : Result (list AggregatedStats) :=
  let size := inject_Z (Z.of_nat (String.length output) * 10240) in
  Ok [sampleStats output board (200000 - size); sampleStats output home size].

Definition sampleWorld : World :=
  {| cwd := "/repo";
     existsSync := fun p => negb (String.eqb p "/repo/metrics");
     execSync := sampleExec;
     JSON_parse := sampleParse;
     toISOString_now := fun _ => "2025-01-01T00:10:00.000Z" |}.

Definition bareWorld : World :=
  {| cwd := "/repo";
     existsSync := fun _ => false;
     execSync := sampleExec;
     JSON_parse := sampleParse;
     toISOString_now := fun _ => "2025-01-01T00:10:00.000Z" |}.

Definition sampleArgv : list string := ["node"; "scripts/measure-final.ts"].

Definition Nuxt : Framework :=
  {| name := "Nuxt"; dir := "kanban-nuxt"; buildCheck := [".output"; "dist"] |}.

(** ** Further vocabulary *)

(** The message logged for a framework whose build was not found, and the
    names of the frameworks without a build, in the order of [FRAMEWORKS]. *)
Definition notFoundLog (fw : Framework) : Event :=
  console_error ("   ❌ " ++ name fw ++ ": Build not found").

Definition missingBuilds (w : World) : list string :=
  map name (filter (fun fw => negb (hasBuild w fw)) FRAMEWORKS).

(** The probe of a build directory. *)
Definition probe (w : World) (fw : Framework) (d : string) : Event :=
  fs_existsSync (buildPath w fw d).

(** The directories created, in order. *)
Definition mkdirs (t : list Event) : list string :=
  flat_map (fun e => match e with fs_mkdirSync p => [p] | _ => [] end) t.

(** The accepted network conditions, and the words the parser reacts to. *)
Definition networks : list string := ["4g"; "3g"; "slow-3g"].

Definition isFlag (a : string) : Prop := a = "--runs" \/ a = "--network".

(** The sorting key of the tables. *)
Definition rawMedian (r : AggregatedStats) : Q := median (jsUncompressed r).

(** The three report files. *)
Definition reportFiles : list string :=
  ["final-measurements.json"; "final-measurements.md"; "bundle-summary.json"].

(** A host in which every build is in place and every subprocess fails. *)
Definition failingWorld : World :=
  {| cwd := "/repo";
     existsSync := fun p => negb (String.eqb p "/repo/metrics");
     execSync := fun _ => Throw "Error: Command failed";
     JSON_parse := sampleParse;
     toISOString_now := fun _ => "2025-01-01T00:10:00.000Z" |}.

(** A host in which the only directory is the [build] directory of Marko. *)
Definition buildOnlyWorld : World :=
  {| cwd := "/repo";
     existsSync := fun p => String.eqb p "/repo/kanban-marko/build";
     execSync := sampleExec;
     JSON_parse := sampleParse;
     toISOString_now := fun _ => "2025-01-01T00:10:00.000Z" |}.

Definition Marko : Framework :=
  {| name := "Marko"; dir := "kanban-marko"; buildCheck := ["dist"; "build"] |}.

(** * Properties *)

(** ** The built-ins on examples *)

Example parseInt_plain : JS.parseInt "10" = Some 10.
Proof. reflexivity. Qed.

Example parseInt_tail : JS.parseInt "  -12abc" = Some (-12).
Proof. reflexivity. Qed.

Example parseInt_flag : JS.parseInt "--runs" = None.
Proof. reflexivity. Qed.

Example toFixed_kb : JS.toFixed (123456 / 1024) 1 = "120.6".
Proof. reflexivity. Qed.

Example toFixed_small : JS.toFixed (-(1 # 100)) 1 = "-0.0".
Proof. reflexivity. Qed.

Example toString_frac : JS.Number_toString (853 # 10) = "85.3".
Proof. reflexivity. Qed.

Example stringify_small :
  JSON.stringify (JSON.Obj [("a", JSON.Num 1); ("b", JSON.Arr [JSON.Str "x"])])
  = "{" ++ JS.nl ++ "  " ++ JS.dq ++ "a" ++ JS.dq ++ ": 1," ++ JS.nl
    ++ "  " ++ JS.dq ++ "b" ++ JS.dq ++ ": [" ++ JS.nl
    ++ "    " ++ JS.dq ++ "x" ++ JS.dq ++ JS.nl ++ "  ]" ++ JS.nl ++ "}".
Proof. reflexivity. Qed.

Example quote_escapes :
  JSON.quote ("a" ++ JS.dq ++ "b" ++ JS.nl)
  = JS.dq ++ "a\" ++ JS.dq ++ "b\n" ++ JS.dq.
Proof. reflexivity. Qed.

Example formatKB_half : formatKB 1536 = "1.5".
Proof. reflexivity. Qed.

(** The sample run: Nuxt fails, the eleven other frameworks give two records
    each, and three files are written. *)
Example sample_run :
  outcome (measureAll sampleWorld 10 "4g")
  = Done (allResults sampleWorld 10 "4g", ["Nuxt"])
  /\ List.length (commands (trace (main sampleWorld sampleArgv))) = 12%nat
  /\ List.length (writes (trace (main sampleWorld sampleArgv))) = 3%nat
  /\ outcome (main bareWorld sampleArgv) = Exited 1.
Proof. repeat split; vm_compute; reflexivity. Qed.

(** ** Computations and their traces *)

Lemma io_eta {A : Type} (m : IO A) : m = (trace m, outcome m).
Proof. destruct m; reflexivity. Qed.

Lemma bind_done {A B : Type} (m : IO A) (k : A -> IO B) (a : A) :
  outcome m = Done a ->
  bind m k = ((trace m ++ trace (k a))%list, outcome (k a)).
Proof.
  destruct m as [t o]; simpl; intros ->.
  unfold bind. destruct (k a); reflexivity.
Qed.

Lemma bind_exit {A B : Type} (m : IO A) (k : A -> IO B) (c : Z) :
  outcome m = Exited c -> bind m k = (trace m, Exited c).
Proof. destruct m as [t o]; simpl; intros ->; reflexivity. Qed.

Lemma bind_emit {B : Type} (e : Event) (k : unit -> IO B) :
  bind (emit e) k = (e :: trace (k tt), outcome (k tt)).
Proof. unfold bind, emit. destruct (k tt); reflexivity. Qed.

Lemma bind_log {B : Type} (msg : string) (k : unit -> IO B) :
  bind (log msg) k = (console_error msg :: trace (k tt), outcome (k tt)).
Proof. apply bind_emit. Qed.

Lemma bind_ret {A B : Type} (a : A) (k : A -> IO B) : bind (ret a) k = k a.
Proof. unfold bind, ret. destruct (k a); reflexivity. Qed.

Lemma trace_bind_done {A B : Type} (m : IO A) (k : A -> IO B) (a : A) :
  outcome m = Done a -> trace (bind m k) = (trace m ++ trace (k a))%list.
Proof. intros H. rewrite (bind_done _ _ _ H). reflexivity. Qed.

Lemma outcome_bind_done {A B : Type} (m : IO A) (k : A -> IO B) (a : A) :
  outcome m = Done a -> outcome (bind m k) = outcome (k a).
Proof. intros H. rewrite (bind_done _ _ _ H). reflexivity. Qed.

Lemma trace_bind_emit {B : Type} (e : Event) (k : unit -> IO B) :
  trace (bind (emit e) k) = e :: trace (k tt).
Proof. rewrite bind_emit. reflexivity. Qed.

Lemma outcome_bind_emit {B : Type} (e : Event) (k : unit -> IO B) :
  outcome (bind (emit e) k) = outcome (k tt).
Proof. rewrite bind_emit. reflexivity. Qed.

Lemma trace_bind_log {B : Type} (msg : string) (k : unit -> IO B) :
  trace (bind (log msg) k) = console_error msg :: trace (k tt).
Proof. apply trace_bind_emit. Qed.

Lemma outcome_bind_log {B : Type} (msg : string) (k : unit -> IO B) :
  outcome (bind (log msg) k) = outcome (k tt).
Proof. apply outcome_bind_emit. Qed.

Lemma trace_bind_exit {A B : Type} (m : IO A) (k : A -> IO B) (c : Z) :
  outcome m = Exited c -> trace (bind m k) = trace m.
Proof. intros H. rewrite (bind_exit _ _ _ H). reflexivity. Qed.

Lemma outcome_bind_exit {A B : Type} (m : IO A) (k : A -> IO B) (c : Z) :
  outcome m = Exited c -> outcome (bind m k) = Exited c.
Proof. intros H. rewrite (bind_exit _ _ _ H). reflexivity. Qed.

Lemma bind_pair {A B : Type} (t : list Event) (a : A) (k : A -> IO B) :
  bind (t, Done a) k = ((t ++ trace (k a))%list, outcome (k a)).
Proof. unfold bind. destruct (k a); reflexivity. Qed.

Lemma commands_app (t u : list Event) :
  commands (t ++ u) = (commands t ++ commands u)%list.
Proof. apply flat_map_app. Qed.

Lemma writes_app (t u : list Event) :
  writes (t ++ u) = (writes t ++ writes u)%list.
Proof. apply flat_map_app. Qed.

Lemma quiet_commands (t : list Event) : Forall isQuiet t -> commands t = [].
Proof.
  induction 1 as [|e t He _ IH]; [reflexivity|].
  destruct e; simpl in *; try contradiction; exact IH.
Qed.

Lemma quiet_writes (t : list Event) : Forall isQuiet t -> writes t = [].
Proof.
  induction 1 as [|e t He _ IH]; [reflexivity|].
  destruct e; simpl in *; try contradiction; exact IH.
Qed.

Lemma log_quiet (e : Event) : isLog e -> isQuiet e.
Proof. intros [msg ->]; exact I. Qed.

(** ** Argument parsing *)

(** The parsing loop advances by one word or by two: induction follows it. *)
Lemma args_ind (P : list string -> Prop) :
  P [] ->
  (forall a, P [a]) ->
  (forall a v rest, P rest -> P (v :: rest) -> P (a :: v :: rest)) ->
  forall args, P args.
Proof.
  intros H0 H1 H2 args.
  assert (H : P args /\ forall a, P (a :: args)).
  { induction args as [|b l [IHl IHc]]; split; auto. }
  exact (proj1 H).
Qed.

Lemma parseArgs_step (a v : string) (rest : list string) (n : Z) (net : string) :
  parseArgs (a :: v :: rest) n net =
  if String.eqb a "--runs" then
    match JS.parseInt v with
    | None => log "❌ Error: --runs must be a positive number" ;; process_exit 1
    | Some k =>
        if k <? 1 then
          log "❌ Error: --runs must be a positive number" ;; process_exit 1
        else parseArgs rest k net
    end
  else if String.eqb a "--network" then
    if existsb (String.eqb v) ["4g"; "3g"; "slow-3g"] then parseArgs rest n v
    else
      log ("❌ Error: Invalid network condition " ++ JS.dq ++ v ++ JS.dq) ;;
      log "Available conditions: 4g, 3g, slow-3g" ;;
      process_exit 1
  else parseArgs (v :: rest) n net.
Proof. reflexivity. Qed.

Ltac io_step :=
  repeat first [rewrite bind_log | rewrite bind_emit | rewrite bind_ret];
  cbn [trace outcome fst snd process_exit ret].

(** Parsing only ever writes to the console. *)
Lemma parseArgs_logs (args : list string) :
  forall n net, Forall isLog (trace (parseArgs args n net)).
Proof.
  induction args as [|a|a v rest' IH2 IH1] using args_ind; intros n net;
    [constructor | constructor |].
  rewrite parseArgs_step.
  destruct (String.eqb a "--runs").
  - destruct (JS.parseInt v) as [k|]; [destruct (k <? 1)|];
      try apply IH2; io_step; repeat constructor; eexists; reflexivity.
  - destruct (String.eqb a "--network"); [|apply IH1].
    destruct (existsb (String.eqb v) ["4g"; "3g"; "slow-3g"]); [apply IH2|].
    io_step. repeat constructor; eexists; reflexivity.
Qed.

(** When parsing leaves, the exit code is 1. *)
Lemma parseArgs_exit_code (args : list string) :
  forall n net c, outcome (parseArgs args n net) = Exited c -> c = 1.
Proof.
  induction args as [|a|a v rest' IH2 IH1] using args_ind; intros n net c;
    [discriminate | discriminate |].
  rewrite parseArgs_step.
  destruct (String.eqb a "--runs").
  - destruct (JS.parseInt v) as [k|]; [destruct (k <? 1)|];
      try apply IH2; io_step; congruence.
  - destruct (String.eqb a "--network"); [|apply IH1].
    destruct (existsb (String.eqb v) ["4g"; "3g"; "slow-3g"]); [apply IH2|].
    io_step. congruence.
Qed.

Lemma networks_spec (v : string) :
  existsb (String.eqb v) ["4g"; "3g"; "slow-3g"] = true <-> In v ["4g"; "3g"; "slow-3g"].
Proof.
  rewrite existsb_exists. split.
  - intros [x [Hx E]]. apply String.eqb_eq in E. subst x. exact Hx.
  - intros H. exists v. split; [exact H | apply String.eqb_refl].
Qed.

Lemma parseArgs_bad_runs_here (v : string) (post : list string) (n : Z) (net : string) :
  badRuns v -> outcome (parseArgs ("--runs" :: v :: post) n net) = Exited 1.
Proof.
  intros Hv. rewrite parseArgs_step. cbn [String.eqb Ascii.eqb Bool.eqb].
  destruct Hv as [-> | [k [-> Hk]]].
  - io_step. reflexivity.
  - apply Z.ltb_lt in Hk. rewrite Hk. io_step. reflexivity.
Qed.

Lemma parseArgs_bad_runs (pre : list string) :
  forall v post n net, badRuns v ->
    outcome (parseArgs (pre ++ "--runs" :: v :: post) n net) = Exited 1.
Proof.
  induction pre as [|a|a b pre' IH2 IH1] using args_ind; intros v post n net Hv.
  - apply parseArgs_bad_runs_here; exact Hv.
  - cbn [app]. rewrite parseArgs_step.
    destruct (String.eqb a "--runs"); [reflexivity|].
    destruct (String.eqb a "--network"); [reflexivity|].
    apply parseArgs_bad_runs_here; exact Hv.
  - cbn [app]. rewrite parseArgs_step.
    destruct (String.eqb a "--runs").
    + destruct (JS.parseInt b) as [k|]; [destruct (k <? 1)|];
        try (apply IH2; exact Hv); io_step; reflexivity.
    + destruct (String.eqb a "--network"); [|apply (IH1 v post n net Hv)].
      destruct (existsb (String.eqb b) ["4g"; "3g"; "slow-3g"]);
        [apply IH2; exact Hv|].
      io_step. reflexivity.
Qed.

Lemma parseArgs_bad_network_here (v : string) (post : list string) (n : Z) (net : string) :
  badNetwork v -> outcome (parseArgs ("--network" :: v :: post) n net) = Exited 1.
Proof.
  intros Hv. rewrite parseArgs_step. cbn [String.eqb Ascii.eqb Bool.eqb].
  destruct (existsb (String.eqb v) ["4g"; "3g"; "slow-3g"]) eqn:E.
  - apply networks_spec in E. contradiction.
  - io_step. reflexivity.
Qed.

Lemma parseArgs_bad_network (pre : list string) :
  forall v post n net, badNetwork v ->
    outcome (parseArgs (pre ++ "--network" :: v :: post) n net) = Exited 1.
Proof.
  induction pre as [|a|a b pre' IH2 IH1] using args_ind; intros v post n net Hv.
  - apply parseArgs_bad_network_here; exact Hv.
  - cbn [app]. rewrite parseArgs_step.
    destruct (String.eqb a "--runs"); [reflexivity|].
    destruct (String.eqb a "--network"); [reflexivity|].
    apply parseArgs_bad_network_here; exact Hv.
  - cbn [app]. rewrite parseArgs_step.
    destruct (String.eqb a "--runs").
    + destruct (JS.parseInt b) as [k|]; [destruct (k <? 1)|];
        try (apply IH2; exact Hv); io_step; reflexivity.
    + destruct (String.eqb a "--network"); [|apply (IH1 v post n net Hv)].
      destruct (existsb (String.eqb b) ["4g"; "3g"; "slow-3g"]);
        [apply IH2; exact Hv|].
      io_step. reflexivity.
Qed.

(** Without either flag among the words, nothing is changed and nothing said. *)
Lemma parseArgs_no_flags (args : list string) :
  forall n net, ~ In "--runs" args -> ~ In "--network" args ->
    parseArgs args n net = ret (n, net).
Proof.
  induction args as [|a rest IH]; intros n net Hr Hn; [reflexivity|].
  destruct rest as [|v rest']; [reflexivity|].
  rewrite parseArgs_step.
  destruct (String.eqb a "--runs") eqn:Ea.
  { apply String.eqb_eq in Ea. subst a. exfalso. apply Hr. left; reflexivity. }
  destruct (String.eqb a "--network") eqn:Eb.
  { apply String.eqb_eq in Eb. subst a. exfalso. apply Hn. left; reflexivity. }
  apply IH; intros H; [apply Hr | apply Hn]; right; exact H.
Qed.

(** ** Loops whose turns complete *)

Section Loops.

Context {A S : Type} (body : S -> A -> IO S) (next : S -> A -> S).
Hypothesis body_done : forall s x, outcome (body s x) = Done (next s x).

Lemma forOf_done (l : list A) :
  forall s, forOf body l s = (loopTrace body next l s, Done (fold_left next l s)).
Proof.
  induction l as [|x r IH]; intros s; [reflexivity|].
  cbn [forOf loopTrace fold_left].
  rewrite (bind_done _ _ _ (body_done s x)), IH. reflexivity.
Qed.

Lemma loopTrace_Forall (P : Event -> Prop) :
  (forall s x, Forall P (trace (body s x))) ->
  forall l s, Forall P (loopTrace body next l s).
Proof.
  intros HP l. induction l as [|x r IH]; intros s; cbn [loopTrace].
  - constructor.
  - apply Forall_app. split; [apply HP | apply IH].
Qed.

Lemma loopTrace_In (e : Event) (x : A) (l : list A) :
  In x l -> (forall s, In e (trace (body s x))) ->
  forall s, In e (loopTrace body next l s).
Proof.
  intros Hx He. induction l as [|y r IH]; intros s; [contradiction|].
  cbn [loopTrace]. apply in_or_app. destruct Hx as [-> | Hx].
  - left. apply He.
  - right. apply IH, Hx.
Qed.

End Loops.

(** ** Build validation *)

Lemma checkBuildDirs_spec (w : World) (root : string) (dirs : list string) :
  outcome (checkBuildDirs w root dirs)
  = Done (existsb (fun d => existsSync w (JS.path_join root d)) dirs)
  /\ Forall isQuiet (trace (checkBuildDirs w root dirs)).
Proof.
  induction dirs as [|d rest [IHo IHt]]; [split; [reflexivity | constructor]|].
  cbn [checkBuildDirs existsb]. rewrite bind_emit. cbn [trace outcome fst snd].
  destruct (existsSync w (JS.path_join root d)); cbn [orb].
  - split; [reflexivity | repeat constructor].
  - split; [exact IHo | constructor; [exact I | exact IHt]].
Qed.

Lemma checkBuildExists_done (w : World) (fw : Framework) :
  outcome (checkBuildExists w fw) = Done (hasBuild w fw).
Proof. apply checkBuildDirs_spec. Qed.

Lemma checkBuildExists_quiet (w : World) (fw : Framework) :
  Forall isQuiet (trace (checkBuildExists w fw)).
Proof. apply checkBuildDirs_spec. Qed.

Lemma validateOne_done (w : World) (missingBuilds : list string) (fw : Framework) :
  outcome (validateOne w missingBuilds fw) = Done (noteMissing w missingBuilds fw).
Proof.
  unfold validateOne, noteMissing.
  rewrite (bind_done _ _ _ (checkBuildExists_done w fw)). cbn [outcome snd].
  destruct (hasBuild w fw); io_step; reflexivity.
Qed.

Lemma validateOne_quiet (w : World) (missingBuilds : list string) (fw : Framework) :
  Forall isQuiet (trace (validateOne w missingBuilds fw)).
Proof.
  unfold validateOne.
  rewrite (bind_done _ _ _ (checkBuildExists_done w fw)). cbn [trace fst].
  apply Forall_app. split; [apply checkBuildExists_quiet|].
  destruct (hasBuild w fw); io_step; repeat constructor.
Qed.

Lemma noteMissing_fold (w : World) (fws : list Framework) :
  forall missingBuilds,
    fold_left (noteMissing w) fws missingBuilds
    = (missingBuilds ++ map name (filter (fun fw => negb (hasBuild w fw)) fws))%list.
Proof.
  induction fws as [|fw r IH]; intros m; cbn [fold_left filter map].
  - rewrite app_nil_r. reflexivity.
  - rewrite IH. unfold noteMissing. destruct (hasBuild w fw); cbn [negb map].
    + reflexivity.
    + rewrite <- app_assoc. reflexivity.
Qed.

Lemma hasBuild_present (w : World) (fw : Framework) :
  hasBuild w fw = true <-> buildPresent w fw.
Proof. unfold hasBuild, buildPresent. apply existsb_exists. Qed.

Lemma hasBuild_missing (w : World) (fw : Framework) :
  hasBuild w fw = false <-> buildMissing w fw.
Proof.
  unfold buildMissing. split.
  - intros H d Hd. destruct (existsSync w (buildPath w fw d)) eqn:E; [|reflexivity].
    assert (hasBuild w fw = true) by (apply hasBuild_present; exists d; auto).
    congruence.
  - intros H. destruct (hasBuild w fw) eqn:E; [|reflexivity].
    apply hasBuild_present in E. destruct E as [d [Hd E]].
    rewrite (H d Hd) in E. discriminate.
Qed.

Lemma filter_nil_iff {A : Type} (f : A -> bool) (l : list A) :
  filter f l = [] <-> forall x, In x l -> f x = false.
Proof.
  induction l as [|a l IH]; cbn [filter].
  - split; [intros _ x [] | reflexivity].
  - destruct (f a) eqn:E; split.
    + discriminate.
    + intros H. rewrite (H a (or_introl eq_refl)) in E. discriminate.
    + intros H x [<- | Hx]; [exact E | apply IH; assumption].
    + intros H. apply IH. intros x Hx. apply H. right; exact Hx.
Qed.

Lemma validateBuilds_quiet (w : World) : Forall isQuiet (trace (validateBuilds w)).
Proof.
  unfold validateBuilds. rewrite bind_log.
  rewrite (forOf_done _ _ (validateOne_done w)), bind_pair.
  cbn [trace fst]. constructor; [exact I|].
  apply Forall_app. split.
  - apply loopTrace_Forall. apply validateOne_quiet.
  - destruct (fold_left (noteMissing w) FRAMEWORKS []); io_step; repeat constructor.
Qed.

Lemma validateBuilds_pass (w : World) :
  (forall fw, In fw FRAMEWORKS -> buildPresent w fw) ->
  outcome (validateBuilds w) = Done tt.
Proof.
  intros H. unfold validateBuilds. rewrite bind_log.
  rewrite (forOf_done _ _ (validateOne_done w)), bind_pair.
  cbn [outcome snd]. rewrite noteMissing_fold. cbn [app].
  replace (filter (fun fw => negb (hasBuild w fw)) FRAMEWORKS) with (@nil Framework).
  - reflexivity.
  - symmetry. apply filter_nil_iff. intros fw Hfw.
    apply H, hasBuild_present in Hfw. rewrite Hfw. reflexivity.
Qed.

Lemma validateBuilds_abort (w : World) (fw : Framework) :
  In fw FRAMEWORKS -> buildMissing w fw ->
  outcome (validateBuilds w) = Exited 1.
Proof.
  intros Hin Hm. unfold validateBuilds. rewrite bind_log.
  rewrite (forOf_done _ _ (validateOne_done w)), bind_pair.
  cbn [outcome snd]. rewrite noteMissing_fold. cbn [app].
  destruct (filter (fun fw => negb (hasBuild w fw)) FRAMEWORKS) eqn:E.
  - exfalso. pose proof (proj1 (filter_nil_iff _ _) E fw Hin) as Hf.
    apply hasBuild_missing in Hm. cbv beta in Hf. rewrite Hm in Hf. discriminate.
  - cbn [map]. io_step. reflexivity.
Qed.

Lemma validateOne_found (w : World) (missingBuilds : list string) (fw : Framework) :
  hasBuild w fw = true -> In (foundLog fw) (trace (validateOne w missingBuilds fw)).
Proof.
  intros H. unfold validateOne.
  rewrite (trace_bind_done _ _ _ (checkBuildExists_done w fw)), H.
  apply in_or_app. right. rewrite trace_bind_log. left. reflexivity.
Qed.

Lemma validateBuilds_found (w : World) (fw : Framework) :
  In fw FRAMEWORKS -> hasBuild w fw = true ->
  In (foundLog fw) (trace (validateBuilds w)).
Proof.
  intros Hin H. unfold validateBuilds. rewrite trace_bind_log.
  rewrite (forOf_done _ _ (validateOne_done w)), bind_pair. cbn [trace fst].
  right. apply in_or_app. left.
  apply loopTrace_In with (x := fw); [exact Hin|].
  intros m. apply validateOne_found, H.
Qed.

(** ** The measurement loop *)

(** The loop state after one turn. *)
Lemma measureOne_done (w : World) (n : Z) (net : string)
    (st : list AggregatedStats * list string) (fw : Framework) :
  outcome (measureOne w n net st fw) = Done (advance w n net st fw).
Proof.
  destruct st as [rs fs]. unfold measureOne, advance, recordsOf, failed.
  io_step. destruct (attempt w (measureCommand fw n net)); io_step; cbn [fst snd].
  - rewrite app_nil_r. reflexivity.
  - rewrite app_nil_r. reflexivity.
Qed.

Lemma measureOne_trace (w : World) (n : Z) (net : string)
    (st : list AggregatedStats * list string) (fw : Framework) :
  trace (measureOne w n net st fw) = turn w n net fw.
Proof.
  destruct st as [rs fs]. unfold measureOne, turn, failureLog.
  io_step. destruct (attempt w (measureCommand fw n net)); io_step; reflexivity.
Qed.

Lemma advance_fold (w : World) (n : Z) (net : string) (fws : list Framework) :
  forall st,
    fold_left (advance w n net) fws st
    = ((fst st ++ flat_map (recordsOf w n net) fws)%list,
       (snd st ++ map name (filter (failed w n net) fws))%list).
Proof.
  induction fws as [|fw r IH]; intros [rs fs]; cbn [fold_left flat_map filter map fst snd].
  - rewrite !app_nil_r. reflexivity.
  - rewrite IH. unfold advance. cbn [fst snd]. rewrite <- !app_assoc.
    destruct (failed w n net fw); reflexivity.
Qed.

Lemma measure_loopTrace (w : World) (n : Z) (net : string) (fws : list Framework) :
  forall st,
    loopTrace (measureOne w n net) (advance w n net) fws st
    = flat_map (turn w n net) fws.
Proof.
  induction fws as [|fw r IH]; intros st; cbn [loopTrace flat_map]; [reflexivity|].
  rewrite measureOne_trace, IH. reflexivity.
Qed.

(** The loop takes every framework in turn and ends with what was gathered. *)
Lemma measureAll_spec (w : World) (n : Z) (net : string) :
  measureAll w n net
  = (flat_map (turn w n net) FRAMEWORKS,
     Done (allResults w n net, failedFrameworks w n net)).
Proof.
  unfold measureAll.
  rewrite (forOf_done _ _ (measureOne_done w n net)).
  rewrite measure_loopTrace, advance_fold. reflexivity.
Qed.

Lemma turn_commands (w : World) (n : Z) (net : string) (fw : Framework) :
  commands (turn w n net fw) = [measureCommand fw n net].
Proof.
  unfold turn, failureLog. destruct (attempt w (measureCommand fw n net)); reflexivity.
Qed.

Lemma turn_writes (w : World) (n : Z) (net : string) (fw : Framework) :
  writes (turn w n net fw) = [].
Proof.
  unfold turn, failureLog. destruct (attempt w (measureCommand fw n net)); reflexivity.
Qed.

Lemma turns_commands (w : World) (n : Z) (net : string) (fws : list Framework) :
  commands (flat_map (turn w n net) fws)
  = map (fun fw => measureCommand fw n net) fws.
Proof.
  induction fws as [|fw r IH]; cbn [flat_map map]; [reflexivity|].
  rewrite commands_app, turn_commands, IH. reflexivity.
Qed.

Lemma turns_writes (w : World) (n : Z) (net : string) (fws : list Framework) :
  writes (flat_map (turn w n net) fws) = [].
Proof.
  induction fws as [|fw r IH]; cbn [flat_map]; [reflexivity|].
  rewrite writes_app, turn_writes, IH. reflexivity.
Qed.

(** ** Report generation *)

Lemma logLines_spec (rs : list AggregatedStats) :
  logLines rs = (map (fun r => console_error (summaryLine r)) rs, Done tt).
Proof.
  unfold logLines. induction rs as [|r rs IH]; cbn [forOf map]; [reflexivity|].
  rewrite bind_log, IH. reflexivity.
Qed.

Lemma logLines_done (rs : list AggregatedStats) : outcome (logLines rs) = Done tt.
Proof. rewrite logLines_spec. reflexivity. Qed.

Lemma logLines_quiet (rs : list AggregatedStats) : Forall isQuiet (trace (logLines rs)).
Proof.
  rewrite logLines_spec. cbn [trace fst]. apply Forall_forall.
  intros e He. apply in_map_iff in He. destruct He as [r [<- _]]. exact I.
Qed.

Ltac io_trace :=
  repeat first
    [ rewrite trace_bind_log | rewrite trace_bind_emit | rewrite bind_ret
    | rewrite (trace_bind_done _ _ tt (logLines_done _)) ].

Ltac io_outcome :=
  repeat first
    [ rewrite outcome_bind_log | rewrite outcome_bind_emit | rewrite bind_ret
    | rewrite (outcome_bind_done _ _ tt (logLines_done _)) ].

Lemma report_done (w : World) (n : Z) (net : string)
    (rs : list AggregatedStats) (fs : list string) :
  outcome (report w n net rs fs) = Done tt.
Proof.
  unfold report. cbv zeta.
  destruct (existsSync w (JS.path_join (cwd w) "metrics")); destruct fs;
    io_outcome; reflexivity.
Qed.

Lemma report_writes (w : World) (n : Z) (net : string)
    (rs : list AggregatedStats) (fs : list string) :
  writes (trace (report w n net rs fs))
  = [ (metricsPath w "final-measurements.json",
       JSON.stringify (resultsData (toISOString_now w 0) n net rs));
      (metricsPath w "final-measurements.md",
       markdownReport (toISOString_now w 1) n rs fs);
      (metricsPath w "bundle-summary.json",
       JSON.stringify (legacySummary (toISOString_now w 2) rs)) ].
Proof.
  unfold report, metricsPath. cbv zeta.
  destruct (existsSync w (JS.path_join (cwd w) "metrics")); destruct fs;
    io_trace;
    repeat (cbn [writes flat_map app];
            rewrite ?app_nil_r;
            try match goal with
                | |- context [flat_map ?f (trace (logLines ?l) ++ ?t)] =>
                    change (flat_map f (trace (logLines l) ++ t))
                      with (writes (trace (logLines l) ++ t));
                    rewrite writes_app, (quiet_writes _ (logLines_quiet l))
                end);
    reflexivity.
Qed.

Lemma report_commands (w : World) (n : Z) (net : string)
    (rs : list AggregatedStats) (fs : list string) :
  commands (trace (report w n net rs fs)) = [].
Proof.
  unfold report. cbv zeta.
  destruct (existsSync w (JS.path_join (cwd w) "metrics")); destruct fs;
    io_trace;
    repeat (cbn [commands flat_map app];
            rewrite ?app_nil_r;
            try match goal with
                | |- context [flat_map ?f (trace (logLines ?l) ++ ?t)] =>
                    change (flat_map f (trace (logLines l) ++ t))
                      with (commands (trace (logLines l) ++ t));
                    rewrite commands_app, (quiet_commands _ (logLines_quiet l))
                end);
    reflexivity.
Qed.

(** ** The run as a whole *)

(** With every build present the run goes through validation, measures
    every framework in turn, and ends with the reports. *)
Lemma runWith_measures (w : World) (n : Z) (net : string) :
  (forall fw, In fw FRAMEWORKS -> buildPresent w fw) ->
  outcome (runWith w n net) = Done tt
  /\ exists pre,
       Forall isQuiet pre
       /\ trace (runWith w n net)
          = (pre ++ flat_map (turn w n net) FRAMEWORKS
             ++ trace (report w n net (allResults w n net) (failedFrameworks w n net)))%list.
Proof.
  intros Hb. pose proof (validateBuilds_pass w Hb) as Hv.
  unfold runWith. split.
  - io_outcome. rewrite (outcome_bind_done _ _ tt Hv), measureAll_spec, bind_pair.
    cbn [outcome snd]. apply report_done.
  - io_trace. rewrite (trace_bind_done _ _ tt Hv), measureAll_spec, bind_pair.
    cbn [trace fst].
    eexists (_ :: _ :: _ :: _ :: trace (validateBuilds w)). split; cycle 1.
    + cbn [app]. reflexivity.
    + repeat (constructor; [exact I|]). apply validateBuilds_quiet.
Qed.

(** With a build missing the run stops at validation. *)
Lemma runWith_aborts (w : World) (n : Z) (net : string) (fw : Framework) :
  In fw FRAMEWORKS -> buildMissing w fw ->
  outcome (runWith w n net) = Exited 1 /\ Forall isQuiet (trace (runWith w n net)).
Proof.
  intros Hin Hm. pose proof (validateBuilds_abort w fw Hin Hm) as Hv.
  unfold runWith. split.
  - io_outcome. apply (outcome_bind_exit _ _ _ Hv).
  - io_trace. rewrite (trace_bind_exit _ _ _ Hv).
    repeat (constructor; [exact I|]). apply validateBuilds_quiet.
Qed.

Lemma parseArgs_quiet (args : list string) (n : Z) (net : string) :
  Forall isQuiet (trace (parseArgs args n net)).
Proof.
  eapply Forall_impl; [|apply parseArgs_logs]. intros e. apply log_quiet.
Qed.

(** A run whose arguments are accepted is the run with the values parsed,
    after whatever parsing printed. *)
Lemma main_parsed (w : World) (argv : list string) (n : Z) (net : string) :
  outcome (parseArgs (skipn 2 argv) 10 "4g") = Done (n, net) ->
  trace (main w argv)
  = (trace (parseArgs (skipn 2 argv) 10 "4g") ++ trace (runWith w n net))%list
  /\ outcome (main w argv) = outcome (runWith w n net).
Proof.
  intros H. unfold main. cbv zeta. rewrite (bind_done _ _ _ H). split; reflexivity.
Qed.

(** A run whose arguments are refused ends there, with code 1 and nothing
    but console output. *)
Lemma main_refused (w : World) (argv : list string) (c : Z) :
  outcome (parseArgs (skipn 2 argv) 10 "4g") = Exited c ->
  outcome (main w argv) = Exited 1 /\ Forall isLog (trace (main w argv)).
Proof.
  intros H. pose proof (parseArgs_exit_code _ _ _ _ H) as ->.
  unfold main. cbv zeta. rewrite (bind_exit _ _ _ H). split; [reflexivity|].
  apply parseArgs_logs.
Qed.

(** ** Sorting by a numeric key *)

Lemma ltb_lt (x y : Q) : JS.ltb x y = true <-> (x < y)%Q.
Proof.
  unfold JS.ltb. rewrite negb_true_iff. split.
  - intros H. apply Qnot_le_lt. intros Hle.
    apply Qle_bool_iff in Hle. congruence.
  - intros H. destruct (Qle_bool y x) eqn:E; [|reflexivity].
    apply Qle_bool_iff in E. exfalso. apply (Qlt_not_le _ _ H E).
Qed.

Section SortByKey.

Context {A : Type} (key : A -> Q) (cmp : A -> A -> Q).
Hypothesis cmp_key : forall a b, (cmp a b == key a - key b)%Q.

Lemma cmp_before (y x : A) : JS.ltb (cmp y x) 0 = true <-> (key y < key x)%Q.
Proof. rewrite ltb_lt, cmp_key. split; intros H; lra. Qed.

Lemma insert_perm (x : A) (l : list A) :
  Permutation (JSArray.insert cmp x l) (x :: l).
Proof.
  induction l as [|y r IH]; cbn [JSArray.insert]; [reflexivity|].
  destruct (JS.ltb (cmp y x) 0); [|reflexivity].
  rewrite IH. apply perm_swap.
Qed.

Lemma sort_perm (l : list A) : Permutation (JSArray.sort cmp l) l.
Proof.
  induction l as [|x r IH]; cbn [JSArray.sort]; [reflexivity|].
  rewrite insert_perm, IH. reflexivity.
Qed.

Lemma insert_sorted (x : A) (l : list A) :
  StronglySorted (fun a b => key a <= key b)%Q l ->
  StronglySorted (fun a b => key a <= key b)%Q (JSArray.insert cmp x l).
Proof.
  induction 1 as [|y r Hr IH Hy]; cbn [JSArray.insert].
  - repeat constructor.
  - destruct (JS.ltb (cmp y x) 0) eqn:E.
    + apply cmp_before in E. constructor; [exact IH|].
      apply (Permutation_Forall (Permutation_sym (insert_perm x r))).
      constructor; [lra | exact Hy].
    + assert (Hxy : (key x <= key y)%Q).
      { apply Qnot_lt_le. intros H. apply cmp_before in H. congruence. }
      constructor; [constructor; assumption|].
      constructor; [exact Hxy|].
      eapply Forall_impl; [|exact Hy]. cbv beta. intros z Hz. lra.
Qed.

Lemma sort_sorted (l : list A) :
  StronglySorted (fun a b => key a <= key b)%Q (JSArray.sort cmp l).
Proof.
  induction l as [|x r IH]; cbn [JSArray.sort]; [constructor|].
  apply insert_sorted, IH.
Qed.

End SortByKey.

(** The records of a page, as the script orders them. *)
Lemma pageSorted_perm (results : list AggregatedStats) (pg : Page) :
  Permutation (pageSorted results pg)
              (filter (fun r => Page_eqb (page r) pg) results).
Proof.
  apply sort_perm.
Qed.

Lemma pageSorted_sorted (results : list AggregatedStats) (pg : Page) :
  StronglySorted
    (fun a b => (median (jsUncompressed a) <= median (jsUncompressed b))%Q)
    (pageSorted results pg).
Proof.
  apply (sort_sorted (fun r => median (jsUncompressed r))).
  intros a b. reflexivity.
Qed.

Lemma Page_eqb_eq (p q : Page) : Page_eqb p q = true <-> p = q.
Proof. destruct p, q; simpl; split; congruence. Qed.

(** ** The comparison table *)

Lemma append_assoc (a b c : string) : (a ++ b) ++ c = a ++ (b ++ c).
Proof. induction a as [|x a IH]; simpl; [reflexivity | rewrite IH; reflexivity]. Qed.

Lemma append_nil_r (a : string) : a ++ "" = a.
Proof. induction a as [|x a IH]; simpl; [reflexivity | rewrite IH; reflexivity]. Qed.

(** The loop appends one row per record, in the order of the list. *)
Lemma rows_appended (rows : list AggregatedStats) :
  forall markdown,
    fold_left (fun markdown r => markdown ++ tableRow r) rows markdown
    = markdown ++ String.concat "" (map tableRow rows).
Proof.
  induction rows as [|r rows IH]; intros md; cbn [fold_left map].
  - simpl. rewrite append_nil_r. reflexivity.
  - rewrite IH, append_assoc. f_equal.
    destruct rows as [|r' rows']; cbn [map String.concat].
    + rewrite append_nil_r. reflexivity.
    + reflexivity.
Qed.

(** ** From the trace back to the events *)



Lemma failed_recorded (w : World) (n : Z) (net : string) (fw : Framework)
    (error : string) :
  In fw FRAMEWORKS ->
  attempt w (measureCommand fw n net) = Throw error ->
  In (name fw) (failedFrameworks w n net).
Proof.
  intros Hin H. unfold failedFrameworks. apply in_map. apply filter_In.
  split; [exact Hin|]. unfold failed. rewrite H. reflexivity.
Qed.

Lemma builds_checked (w : World) :
  forallb (hasBuild w) FRAMEWORKS = true ->
  forall fw, In fw FRAMEWORKS -> buildPresent w fw.
Proof.
  intros H fw Hin. apply hasBuild_present.
  rewrite forallb_forall in H. apply H, Hin.
Qed.

(** A run with accepted arguments and every build present: what precedes
    the measurement launches nothing and writes nothing, then come the turns
    of the loop, then the reports. *)
Lemma main_measures (w : World) (argv : list string) (n : Z) (net : string) :
  outcome (parseArgs (skipn 2 argv) 10 "4g") = Done (n, net) ->
  (forall fw, In fw FRAMEWORKS -> buildPresent w fw) ->
  outcome (main w argv) = Done tt
  /\ exists pre,
       Forall isQuiet pre
       /\ trace (main w argv)
          = (pre ++ flat_map (turn w n net) FRAMEWORKS
             ++ trace (report w n net (allResults w n net) (failedFrameworks w n net)))%list.
Proof.
  intros Hp Hb.
  destruct (main_parsed w argv n net Hp) as [Ht Ho].
  destruct (runWith_measures w n net Hb) as [Hd [pre [Hq Hr]]].
  split; [congruence|].
  exists (trace (parseArgs (skipn 2 argv) 10 "4g") ++ pre)%list. split.
  - apply Forall_app. split; [apply parseArgs_quiet | exact Hq].
  - rewrite Ht, Hr, app_assoc. reflexivity.
Qed.

(** A run with a build missing ends with code 1, having launched and
    written nothing, whatever its arguments. *)
Lemma main_aborts (w : World) (argv : list string) (fw : Framework) :
  In fw FRAMEWORKS -> buildMissing w fw ->
  outcome (main w argv) = Exited 1 /\ Forall isQuiet (trace (main w argv)).
Proof.
  intros Hin Hm.
  destruct (outcome (parseArgs (skipn 2 argv) 10 "4g")) as [[n net]|c] eqn:Hp.
  - destruct (main_parsed w argv n net Hp) as [Ht Ho].
    destruct (runWith_aborts w n net fw Hin Hm) as [He Hq].
    split; [congruence|]. rewrite Ht. apply Forall_app.
    split; [apply parseArgs_quiet | exact Hq].
  - destruct (main_refused w argv c Hp) as [He Hl]. split; [exact He|].
    eapply Forall_impl; [|exact Hl]. intros e. apply log_quiet.
Qed.

Lemma main_commands (w : World) (argv : list string) (n : Z) (net : string) :
  outcome (parseArgs (skipn 2 argv) 10 "4g") = Done (n, net) ->
  (forall fw, In fw FRAMEWORKS -> buildPresent w fw) ->
  commands (trace (main w argv)) = map (fun fw => measureCommand fw n net) FRAMEWORKS.
Proof.
  intros Hp Hb. destruct (main_measures w argv n net Hp Hb) as [_ [pre [Hq ->]]].
  rewrite !commands_app, (quiet_commands _ Hq), turns_commands, report_commands.
  rewrite app_nil_r. reflexivity.
Qed.

Lemma main_writes (w : World) (argv : list string) (n : Z) (net : string) :
  outcome (parseArgs (skipn 2 argv) 10 "4g") = Done (n, net) ->
  (forall fw, In fw FRAMEWORKS -> buildPresent w fw) ->
  writes (trace (main w argv))
  = writes (trace (report w n net (allResults w n net) (failedFrameworks w n net))).
Proof.
  intros Hp Hb. destruct (main_measures w argv n net Hp Hb) as [_ [pre [Hq ->]]].
  rewrite !writes_app, (quiet_writes _ Hq), turns_writes. reflexivity.
Qed.

(** ** Shape of the result records *)




(** ** The statistics of the measurement subprocess *)

Lemma sorted_perm (l : list Q) : Permutation (MeasureSingle.sorted l) l.
Proof. apply sort_perm. Qed.

Lemma sorted_sorted (l : list Q) : StronglySorted Qle (MeasureSingle.sorted l).
Proof.
  apply (sort_sorted (fun x : Q => x)). intros a b. reflexivity.
Qed.

Lemma sorted_length (l : list Q) :
  List.length (MeasureSingle.sorted l) = List.length l.
Proof. apply Permutation_length, sorted_perm. Qed.

Lemma nth_sorted_le (s : list Q) :
  StronglySorted Qle s ->
  forall i j, (i <= j)%nat -> (j < List.length s)%nat ->
    (nth i s 0 <= nth j s 0)%Q.
Proof.
  induction 1 as [|a r Hr IH Ha]; intros i j Hij Hj; [inversion Hj|].
  destruct j as [|j'].
  - replace i with 0%nat by lia. apply Qle_refl.
  - cbn [List.length] in Hj. destruct i as [|i']; cbn [nth].
    + rewrite Forall_forall in Ha. apply Ha. apply nth_In. lia.
    + apply IH; lia.
Qed.

(** The middle of a sorted sample: the values before the midpoint are at
    most [m], those from the midpoint on at least [m], as soon as [m] lies
    between the two values around the midpoint. *)
Lemma middle_splits (s : list Q) (m : Q) :
  StronglySorted Qle s ->
  s <> [] ->
  (nth (List.length s / 2 - 1) s 0 <= m)%Q ->
  (m <= nth (List.length s / 2) s 0)%Q ->
  Forall (fun x => x <= m)%Q (firstn (List.length s / 2) s)
  /\ Forall (fun x => m <= x)%Q (skipn (List.length s / 2) s).
Proof.
  intros Hs Hne Hlo Hhi.
  assert (Hn : (0 < List.length s)%nat) by (destruct s; [congruence | simpl; lia]).
  assert (Hh : (List.length s / 2 < List.length s)%nat)
    by (apply Nat.div_lt; lia).
  split; apply Forall_nth; intros i d Hi.
  - rewrite length_firstn in Hi. rewrite nth_firstn.
    assert (Hi' : (i < List.length s / 2)%nat) by lia.
    apply Nat.ltb_lt in Hi' as Hb. rewrite Hb.
    rewrite (nth_indep s d 0%Q) by lia.
    eapply Qle_trans; [|exact Hlo]. apply nth_sorted_le; [exact Hs | lia | lia].
  - rewrite length_skipn in Hi. rewrite nth_skipn.
    rewrite (nth_indep s d 0%Q) by lia.
    eapply Qle_trans; [exact Hhi|]. apply nth_sorted_le; [exact Hs | lia | lia].
Qed.

Lemma removeOutliers_In (quantile : Q -> list Q -> Q) (fence : Q)
    (samples : list Q) (x : Q) :
  In x (MeasureSingle.removeOutliers quantile fence samples)
  <-> In x samples
      /\ (MeasureSingle.lowerFence quantile fence samples <= x)%Q
      /\ (x <= MeasureSingle.upperFence quantile fence samples)%Q.
Proof.
  unfold MeasureSingle.removeOutliers. rewrite filter_In, andb_true_iff.
  rewrite !Qle_bool_iff. reflexivity.
Qed.

(** * The properties the specification states *)



(** C2.  When some framework has none of its build directories, the run ends
    with exit code 1, whatever its arguments, and its trace holds nothing
    but console output and file-system probes: no subprocess was launched.
    When every framework has one of its build directories, validation
    completes and logs each framework's build as found. *)
Theorem missing_build_aborts_before_measuring (w : World) (argv : list string) :
  ((exists fw, In fw FRAMEWORKS /\ buildMissing w fw) ->
   outcome (main w argv) = Exited 1
   /\ Forall isQuiet (trace (main w argv))
   /\ commands (trace (main w argv)) = [])
  /\ ((forall fw, In fw FRAMEWORKS -> buildPresent w fw) ->
      outcome (validateBuilds w) = Done tt
      /\ forall fw, In fw FRAMEWORKS -> In (foundLog fw) (trace (validateBuilds w))).
Proof.
  split.
  - intros [fw [Hin Hm]]. destruct (main_aborts w argv fw Hin Hm) as [He Hq].
    repeat split; [exact He | exact Hq | apply quiet_commands, Hq].
  - intros Hb. split; [apply validateBuilds_pass, Hb|].
    intros fw Hin. apply validateBuilds_found; [exact Hin|].
    apply hasBuild_present, Hb, Hin.
Qed.

Lemma missing_build_aborts_before_measuring_witness :
  outcome (main bareWorld sampleArgv) = Exited 1
  /\ commands (trace (main bareWorld sampleArgv)) = []
  /\ outcome (validateBuilds sampleWorld) = Done tt.
Proof.
  destruct (missing_build_aborts_before_measuring bareWorld sampleArgv) as [Ha _].
  destruct (missing_build_aborts_before_measuring sampleWorld sampleArgv) as [_ Hv].
  assert (Hm : exists fw, In fw FRAMEWORKS /\ buildMissing bareWorld fw).
  { exists Nuxt. split; [right; left; reflexivity|]. intros d _. reflexivity. }
  assert (Hb : forall fw, In fw FRAMEWORKS -> buildPresent sampleWorld fw)
    by (apply builds_checked; vm_compute; reflexivity).
  destruct (Ha Hm) as [H1 [_ H2]]. destruct (Hv Hb) as [H3 _].
  repeat split; assumption.
Defined.

(** C3.  The mean, the median and the standard deviation of a summary are
    those of the sample set left by interquartile-range trimming: the raw
    samples that lie within the fences.  The raw samples enter the summary
    through the trimmed set only, so two sample sets that trim to the same
    set have the same summary. *)
Theorem summary_computed_from_trimmed_samples
    (quantile : Q -> list Q -> Q) (fence : Q) (sqrt : Q -> Q) (samples : list Q) :
  mean (MeasureSingle.summarize quantile fence sqrt samples)
  = MeasureSingle.meanOf (MeasureSingle.removeOutliers quantile fence samples)
  /\ median (MeasureSingle.summarize quantile fence sqrt samples)
     = MeasureSingle.medianOf (MeasureSingle.removeOutliers quantile fence samples)
  /\ stddev (MeasureSingle.summarize quantile fence sqrt samples)
     = sqrt (MeasureSingle.varianceOf
               (MeasureSingle.removeOutliers quantile fence samples))
  /\ (forall x,
        In x (MeasureSingle.removeOutliers quantile fence samples)
        <-> In x samples
            /\ (MeasureSingle.lowerFence quantile fence samples <= x)%Q
            /\ (x <= MeasureSingle.upperFence quantile fence samples)%Q)
  /\ (forall samples',
        MeasureSingle.removeOutliers quantile fence samples'
        = MeasureSingle.removeOutliers quantile fence samples ->
        MeasureSingle.summarize quantile fence sqrt samples'
        = MeasureSingle.summarize quantile fence sqrt samples).
Proof.
  split; [reflexivity|]. split; [reflexivity|]. split; [reflexivity|]. split.
  - intros x. apply removeOutliers_In.
  - intros samples' E. unfold MeasureSingle.summarize. rewrite E. reflexivity.
Qed.

(** The trimmed statistics differ from the raw ones as soon as a sample is
    trimmed away. *)
Example summary_ignores_outlier (sqrt : Q -> Q) :
  MeasureSingle.removeOutliers MeasureSingle.floorRank (3 # 2) MeasureSingle.sampleRuns
  = [10; 12; 11; 13]%Q
  /\ (mean (MeasureSingle.summarize MeasureSingle.floorRank (3 # 2) sqrt
              MeasureSingle.sampleRuns) == 23 # 2)%Q
  /\ (MeasureSingle.meanOf MeasureSingle.sampleRuns == 1046 # 5)%Q
  /\ (median (MeasureSingle.summarize MeasureSingle.floorRank (3 # 2) sqrt
                MeasureSingle.sampleRuns) == 23 # 2)%Q.
Proof. repeat split; vm_compute; reflexivity. Qed.

(** C4.  For a non-empty trimmed sample set the median of the summary is the
    middle value of the sorted set: with an odd number of samples the one at
    the midpoint, with an even number the mean of the two around it; in both
    cases the sorted samples before the midpoint are at most the median and
    those from the midpoint on are at least the median. *)
Theorem median_is_middle_of_sorted_trimmed
    (quantile : Q -> list Q -> Q) (fence : Q) (sqrt : Q -> Q) (samples : list Q) :
  MeasureSingle.removeOutliers quantile fence samples <> [] ->
  forall s m,
    s = MeasureSingle.sorted (MeasureSingle.removeOutliers quantile fence samples) ->
    m = median (MeasureSingle.summarize quantile fence sqrt samples) ->
    Permutation s (MeasureSingle.removeOutliers quantile fence samples)
    /\ StronglySorted Qle s
    /\ (Nat.odd (List.length s) = true -> m = nth (List.length s / 2) s 0%Q)
    /\ (Nat.even (List.length s) = true ->
        m = ((nth (List.length s / 2 - 1) s 0 + nth (List.length s / 2) s 0) / 2)%Q)
    /\ Forall (fun x => x <= m)%Q (firstn (List.length s / 2) s)
    /\ Forall (fun x => m <= x)%Q (skipn (List.length s / 2) s).
Proof.
  intros Hne s m -> ->.
  cbn [MeasureSingle.summarize median]. unfold MeasureSingle.medianOf. cbv zeta.
  generalize dependent (MeasureSingle.removeOutliers quantile fence samples).
  intros t Hne.
  pose proof (sorted_sorted t) as Hs.
  pose proof (sorted_perm t) as Hp.
  assert (Hs0 : MeasureSingle.sorted t <> []).
  { intros E. rewrite E in Hp. apply Permutation_nil in Hp. contradiction. }
  assert (Hn : (0 < List.length (MeasureSingle.sorted t))%nat)
    by (destruct (MeasureSingle.sorted t); [congruence | simpl; lia]).
  assert (Hh : (List.length (MeasureSingle.sorted t) / 2
                < List.length (MeasureSingle.sorted t))%nat)
    by (apply Nat.div_lt; lia).
  assert (Hab : (nth (List.length (MeasureSingle.sorted t) / 2 - 1)
                     (MeasureSingle.sorted t) 0
                 <= nth (List.length (MeasureSingle.sorted t) / 2)
                        (MeasureSingle.sorted t) 0)%Q)
    by (apply nth_sorted_le; [exact Hs | lia | lia]).
  split; [exact Hp|]. split; [exact Hs|].
  unfold Nat.odd.
  destruct (Nat.even (List.length (MeasureSingle.sorted t))) eqn:Ev; cbn [negb].
  - split; [discriminate|]. split; [reflexivity|].
    apply middle_splits; [exact Hs | exact Hs0 | |];
      apply Qle_shift_div_l || apply Qle_shift_div_r; lra.
  - split; [reflexivity|]. split; [discriminate|].
    apply middle_splits; [exact Hs | exact Hs0 | exact Hab | apply Qle_refl].
Qed.

Lemma median_is_middle_of_sorted_trimmed_witness :
  MeasureSingle.removeOutliers MeasureSingle.floorRank (3 # 2) MeasureSingle.sampleRuns
  <> []
  /\ Forall (fun x => x <= 23 # 2)%Q [10; 11]%Q
  /\ Forall (fun x => 23 # 2 <= x)%Q [12; 13]%Q.
Proof.
  assert (Hne : MeasureSingle.removeOutliers MeasureSingle.floorRank (3 # 2)
                  MeasureSingle.sampleRuns <> [])
    by (vm_compute; discriminate).
  destruct (median_is_middle_of_sorted_trimmed
              MeasureSingle.floorRank (3 # 2) (fun x => x) MeasureSingle.sampleRuns
              Hne [10; 11; 12; 13]%Q ((11 + 12) / 2)%Q eq_refl eq_refl)
    as [_ [_ [_ [_ [Hlo Hhi]]]]].
  split; [exact Hne|]. split.
  - eapply Forall_impl; [|exact Hlo]. intros x Hx. cbv beta in *.
    setoid_replace (23 # 2)%Q with ((11 + 12) / 2)%Q by reflexivity. exact Hx.
  - eapply Forall_impl; [|exact Hhi]. intros x Hx. cbv beta in *.
    setoid_replace (23 # 2)%Q with ((11 + 12) / 2)%Q by reflexivity. exact Hx.
Defined.



(** C6.  Past validation, the measurement part of the trace is the turns of
    the frameworks of [FRAMEWORKS] one after another, in the order of the
    list, between a part that launches nothing and the reports, which launch
    nothing either.  A turn launches the one subprocess of its framework
    and, when that failed, logs the failure before the next turn begins; a
    failure does not end the run, which launches the command of every
    framework and ends normally. *)
Theorem frameworks_measured_one_after_another
    (w : World) (argv : list string) (n : Z) (net : string) :
  outcome (parseArgs (skipn 2 argv) 10 "4g") = Done (n, net) ->
  (forall fw, In fw FRAMEWORKS -> buildPresent w fw) ->
  (exists pre post,
     trace (main w argv) = (pre ++ flat_map (turn w n net) FRAMEWORKS ++ post)%list
     /\ commands pre = []
     /\ commands post = [])
  /\ (forall fw,
        exists banner handled,
          turn w n net fw
          = (banner ++ child_execSync (measureCommand fw n net) :: handled)%list
          /\ Forall isLog banner
          /\ handled = match attempt w (measureCommand fw n net) with
                       | Ok _ => []
                       | Throw error => [failureLog fw error]
                       end)
  /\ commands (trace (main w argv))
     = map (fun fw => measureCommand fw n net) FRAMEWORKS
  /\ outcome (main w argv) = Done tt.
Proof.
  intros Hp Hb.
  destruct (main_measures w argv n net Hp Hb) as [Hd [pre [Hq Ht]]].
  split; [|split; [|split]].
  - exists pre, (trace (report w n net (allResults w n net) (failedFrameworks w n net))).
    split; [exact Ht|]. split; [apply quiet_commands, Hq | apply report_commands].
  - intros fw. eexists [_; _; _], _. split; [reflexivity|].
    split; [|reflexivity]. repeat constructor; eexists; reflexivity.
  - apply main_commands; assumption.
  - exact Hd.
Qed.

Lemma frameworks_measured_one_after_another_witness :
  outcome (parseArgs (skipn 2 sampleArgv) 10 "4g") = Done (10, "4g")
  /\ commands (trace (main sampleWorld sampleArgv))
     = map (fun fw => measureCommand fw 10 "4g") FRAMEWORKS
  /\ outcome (main sampleWorld sampleArgv) = Done tt.
Proof.
  assert (Hp : outcome (parseArgs (skipn 2 sampleArgv) 10 "4g") = Done (10, "4g"))
    by reflexivity.
  assert (Hb : forall fw, In fw FRAMEWORKS -> buildPresent sampleWorld fw)
    by (apply builds_checked; vm_compute; reflexivity).
  destruct (frameworks_measured_one_after_another sampleWorld sampleArgv 10 "4g" Hp Hb)
    as [_ [_ [Hc Hd]]].
  repeat split; assumption.
Defined.




(** The table of the sample records: the board rows only, smallest first. *)
Example table_of_three :
  map framework
    (pageSorted [sampleStats "Marko" board 30000; sampleStats "Qwik" home 100;
                 sampleStats "Astro" board 20000; sampleStats "Nuxt" board 90000]
       board)
  = ["Astro"; "Marko"; "Nuxt"].
Proof. vm_compute. reflexivity. Qed.

(** C9.  When [--runs] is followed by a word that [parseInt] reads as [NaN]
    or as a number below 1, or [--network] by a word other than 4g, 3g and
    slow-3g, the run ends with exit code 1 and has done nothing but print to
    the console.  When neither flag occurs among the arguments the run is
    the one with 10 runs per page on the 4g network condition. *)
Theorem bad_arguments_exit_and_defaults (w : World) (argv : list string) :
  ((exists pre v post,
      skipn 2 argv = (pre ++ "--runs" :: v :: post)%list /\ badRuns v)
   \/ (exists pre v post,
         skipn 2 argv = (pre ++ "--network" :: v :: post)%list /\ badNetwork v) ->
   outcome (main w argv) = Exited 1 /\ Forall isLog (trace (main w argv)))
  /\ (~ In "--runs" (skipn 2 argv) -> ~ In "--network" (skipn 2 argv) ->
      main w argv = runWith w 10 "4g").
Proof.
  split.
  - intros H.
    assert (He : outcome (parseArgs (skipn 2 argv) 10 "4g") = Exited 1).
    { destruct H as [[pre [v [post [-> Hv]]]] | [pre [v [post [-> Hv]]]]].
      - apply parseArgs_bad_runs, Hv.
      - apply parseArgs_bad_network, Hv. }
    apply (main_refused w argv 1 He).
  - intros Hr Hn. unfold main. cbv zeta.
    rewrite (parseArgs_no_flags _ 10 "4g" Hr Hn), bind_ret. reflexivity.
Qed.

Lemma bad_arguments_exit_and_defaults_witness :
  outcome (main sampleWorld ["node"; "scripts/measure-final.ts"; "--runs"; "0"])
  = Exited 1
  /\ outcome (main sampleWorld
                ["node"; "scripts/measure-final.ts"; "--runs"; "3"; "--network"; "5g"])
     = Exited 1
  /\ main sampleWorld sampleArgv = runWith sampleWorld 10 "4g".
Proof.
  split; [|split].
  - apply (bad_arguments_exit_and_defaults sampleWorld
             ["node"; "scripts/measure-final.ts"; "--runs"; "0"]).
    left. exists [], "0", []. split; [reflexivity|].
    right. exists 0. split; [reflexivity | lia].
  - apply (bad_arguments_exit_and_defaults sampleWorld
             ["node"; "scripts/measure-final.ts"; "--runs"; "3"; "--network"; "5g"]).
    right. exists ["--runs"; "3"], "5g", []. split; [reflexivity|].
    unfold badNetwork. simpl. intros [H | [H | [H | []]]]; discriminate.
  - apply (bad_arguments_exit_and_defaults sampleWorld sampleArgv);
      simpl; intros [].
Defined.

(** C10.  On a result list without a record of the requested page (the
    empty list among them) [generateMarkdownTable] returns the heading of
    the table followed directly by the footer, with no row, and the footer
    reports 3 measurement runs and the compression type gzip. *)
Theorem table_without_records (results : list AggregatedStats) (pg : Page) :
  (forall r, In r results -> page r <> pg) ->
  generateMarkdownTable results pg
  = "## " ++ (match pg with home => "Home Page" | board => "Board Page" end)
    ++ " Performance" ++ JS.nl ++ JS.nl
    ++ "Sorted by raw bundle size (smallest first):" ++ JS.nl ++ JS.nl
    ++ "| Framework | Raw (kB) | Compressed (kB) | Ratio | Perf Score | FCP (ms) | LCP (ms) |"
    ++ JS.nl
    ++ "|-----------|----------|----------------|-------|------------|----------|----------|"
    ++ JS.nl
    ++ JS.nl
    ++ "**Explanation:**" ++ JS.nl
    ++ "- **Raw**: Uncompressed bundle size (actual code volume, more consistent for comparison)"
    ++ JS.nl
    ++ "- **Compressed**: Bytes transferred over network (what users download)" ++ JS.nl
    ++ "- **Ratio**: Percentage saved by compression (higher is better compression)" ++ JS.nl
    ++ "- Values show median ±std dev from 3 measurement runs" ++ JS.nl
    ++ "- Compression type: gzip" ++ JS.nl ++ JS.nl.
Proof.
  intros H.
  assert (E : pageSorted results pg = []).
  { unfold pageSorted.
    replace (filter (fun r => Page_eqb (page r) pg) results) with (@nil AggregatedStats);
      [reflexivity|].
    symmetry. apply filter_nil_iff. intros r Hr.
    destruct (Page_eqb (page r) pg) eqn:Eq; [|reflexivity].
    apply Page_eqb_eq in Eq. exfalso. exact (H r Hr Eq). }
  unfold generateMarkdownTable. cbv zeta. rewrite E. cbn [fold_left].
  destruct pg; vm_compute; reflexivity.
Qed.

Lemma table_without_records_witness :
  (forall r, In r [sampleStats "Qwik" board 100] -> page r <> home)
  /\ generateMarkdownTable [sampleStats "Qwik" board 100] home
     = generateMarkdownTable [] home.
Proof.
  assert (H0 : forall r, In r (@nil AggregatedStats) -> page r <> home)
    by (intros r []).
  assert (H1 : forall r, In r [sampleStats "Qwik" board 100] -> page r <> home)
    by (intros r [<- | []]; discriminate).
  split; [exact H1|].
  rewrite (table_without_records [sampleStats "Qwik" board 100] home H1).
  rewrite (table_without_records [] home H0).
  reflexivity.
Defined.

(** * Further properties of the script *)

(** ** Probing the build directories *)

Lemma checkBuildDirs_hit (w : World) (root : string) (before : list string) :
  forall d after,
    (forall x, In x before -> existsSync w (JS.path_join root x) = false) ->
    existsSync w (JS.path_join root d) = true ->
    checkBuildDirs w root (before ++ d :: after)
    = (map (fun x => fs_existsSync (JS.path_join root x)) (before ++ [d]), Done true).
Proof.
  induction before as [|b before IH]; intros d after Hb Hd.
  - cbn [app checkBuildDirs map]. rewrite bind_emit, Hd. reflexivity.
  - cbn [app checkBuildDirs map]. rewrite bind_emit.
    rewrite (Hb b (or_introl eq_refl)).
    rewrite (IH d after); [reflexivity | | exact Hd].
    intros x Hx. apply Hb. right; exact Hx.
Qed.

Lemma checkBuildDirs_miss (w : World) (root : string) (dirs : list string) :
  (forall x, In x dirs -> existsSync w (JS.path_join root x) = false) ->
  checkBuildDirs w root dirs
  = (map (fun x => fs_existsSync (JS.path_join root x)) dirs, Done false).
Proof.
  induction dirs as [|b dirs IH]; intros Hb; [reflexivity|].
  cbn [checkBuildDirs map]. rewrite bind_emit, (Hb b (or_introl eq_refl)).
  rewrite IH; [reflexivity|]. intros x Hx. apply Hb. right; exact Hx.
Qed.

(** X1.  [checkBuildExists] probes the build directories of a framework in
    the order of [buildCheck] and stops at the first one that exists: it
    answers [true] after probing that directory and those before it, and
    never looks at the ones after it.  When none exists it has probed them
    all and answers [false]. *)
Theorem checkBuildExists_stops_at_first_build (w : World) (fw : Framework) :
  (forall before d after,
     buildCheck fw = (before ++ d :: after)%list ->
     (forall x, In x before -> existsSync w (buildPath w fw x) = false) ->
     existsSync w (buildPath w fw d) = true ->
     checkBuildExists w fw = (map (probe w fw) (before ++ [d]), Done true))
  /\ (buildMissing w fw ->
      checkBuildExists w fw = (map (probe w fw) (buildCheck fw), Done false)).
Proof.
  split.
  - intros before d after E Hb Hd. unfold checkBuildExists. rewrite E.
    apply checkBuildDirs_hit; assumption.
  - intros Hm. unfold checkBuildExists. apply checkBuildDirs_miss. exact Hm.
Qed.

Lemma checkBuildExists_stops_at_first_build_witness :
  checkBuildExists buildOnlyWorld Marko
  = ([fs_existsSync "/repo/kanban-marko/dist"; fs_existsSync "/repo/kanban-marko/build"],
     Done true)
  /\ checkBuildExists bareWorld Nuxt
     = ([fs_existsSync "/repo/kanban-nuxt/.output"; fs_existsSync "/repo/kanban-nuxt/dist"],
        Done false).
Proof.
  assert (Hb : forall x, In x ["dist"] ->
                 existsSync buildOnlyWorld (buildPath buildOnlyWorld Marko x) = false)
    by (intros x [<- | []]; reflexivity).
  assert (Hm : buildMissing bareWorld Nuxt) by (intros d _; reflexivity).
  split.
  - exact (proj1 (checkBuildExists_stops_at_first_build buildOnlyWorld Marko)
             ["dist"] "build" [] eq_refl Hb eq_refl).
  - exact (proj2 (checkBuildExists_stops_at_first_build bareWorld Nuxt) Hm).
Defined.

(** ** Validation of the builds *)

Lemma validateOne_not_found (w : World) (missing : list string) (fw : Framework) :
  hasBuild w fw = false -> In (notFoundLog fw) (trace (validateOne w missing fw)).
Proof.
  intros H. unfold validateOne.
  rewrite (trace_bind_done _ _ _ (checkBuildExists_done w fw)), H.
  apply in_or_app. right. rewrite trace_bind_log. left. reflexivity.
Qed.

Lemma validateBuilds_trace (w : World) :
  exists ending,
    trace (validateBuilds w)
    = (console_error "📋 Validating builds..."
       :: loopTrace (validateOne w) (noteMissing w) FRAMEWORKS [] ++ ending)%list
    /\ (missingBuilds w <> [] ->
        In (console_error
              (JS.nl ++ "❌ Error: Missing builds for: " ++ JS.join ", " (missingBuilds w)))
           ending).
Proof.
  unfold validateBuilds. rewrite trace_bind_log.
  rewrite (forOf_done _ _ (validateOne_done w)), bind_pair. cbn [trace fst].
  rewrite noteMissing_fold. cbn [app]. fold (missingBuilds w).
  eexists. split; [reflexivity|].
  intros Hne. destruct (missingBuilds w) as [|m ms]; [contradiction|].
  rewrite trace_bind_log. left. reflexivity.
Qed.

Lemma missingBuilds_In (w : World) (nm : string) :
  In nm (missingBuilds w)
  <-> exists fw, In fw FRAMEWORKS /\ name fw = nm /\ buildMissing w fw.
Proof.
  unfold missingBuilds. rewrite in_map_iff. split.
  - intros [fw [E H]]. apply filter_In in H. destruct H as [Hin Hb].
    exists fw. repeat split; [exact Hin | exact E|].
    apply hasBuild_missing. apply negb_true_iff. exact Hb.
  - intros [fw [Hin [E Hm]]]. exists fw. split; [exact E|].
    apply filter_In. split; [exact Hin|].
    apply negb_true_iff, hasBuild_missing, Hm.
Qed.

(** X2.  Validation does not stop at the first missing build: every
    framework is checked and gets its own line, "Build found" or "Build not
    found"; when builds are missing the closing error message names every
    framework without a build, and no other, before the run ends with
    code 1. *)
Theorem validation_names_every_missing_build (w : World) :
  (forall fw, In fw FRAMEWORKS ->
     (buildPresent w fw -> In (foundLog fw) (trace (validateBuilds w)))
     /\ (buildMissing w fw ->
         In (notFoundLog fw) (trace (validateBuilds w))
         /\ In (console_error
                  (JS.nl ++ "❌ Error: Missing builds for: "
                   ++ JS.join ", " (missingBuilds w)))
               (trace (validateBuilds w))
         /\ outcome (validateBuilds w) = Exited 1))
  /\ (forall nm,
        In nm (missingBuilds w)
        <-> exists fw, In fw FRAMEWORKS /\ name fw = nm /\ buildMissing w fw).
Proof.
  split; [|apply missingBuilds_In].
  intros fw Hin. split.
  - intros Hp. apply validateBuilds_found; [exact Hin | apply hasBuild_present, Hp].
  - intros Hm. destruct (validateBuilds_trace w) as [ending [Ht He]].
    split; [|split].
    + rewrite Ht. right. apply in_or_app. left.
      apply loopTrace_In with (x := fw); [exact Hin|].
      intros m. apply validateOne_not_found, hasBuild_missing, Hm.
    + rewrite Ht. right. apply in_or_app. right. apply He.
      intros E. assert (H : In (name fw) (missingBuilds w)).
      { apply missingBuilds_In. exists fw. auto. }
      rewrite E in H. exact H.
    + apply (validateBuilds_abort w fw Hin Hm).
Qed.

Lemma validation_names_every_missing_build_witness :
  missingBuilds bareWorld = map name FRAMEWORKS
  /\ In (notFoundLog Nuxt) (trace (validateBuilds bareWorld))
  /\ In (foundLog Nuxt) (trace (validateBuilds sampleWorld)).
Proof.
  assert (Hin : In Nuxt FRAMEWORKS) by (right; left; reflexivity).
  split; [vm_compute; reflexivity|]. split.
  - apply (proj1 (validation_names_every_missing_build bareWorld) Nuxt Hin).
    intros d _. reflexivity.
  - apply (proj1 (validation_names_every_missing_build sampleWorld) Nuxt Hin).
    exists ".output". split; [left; reflexivity | reflexivity].
Defined.

(** ** The shape of every run *)

Lemma parseArgs_valid (args : list string) :
  forall n net n' net',
    1 <= n -> In net networks ->
    outcome (parseArgs args n net) = Done (n', net') ->
    1 <= n' /\ In net' networks.
Proof.
  induction args as [|a|a v rest IH2 IH1] using args_ind;
    intros n net n' net' Hn Hnet H.
  - inversion H; subst. auto.
  - inversion H; subst. auto.
  - rewrite parseArgs_step in H.
    destruct (String.eqb a "--runs").
    + destruct (JS.parseInt v) as [k|]; [|rewrite outcome_bind_log in H; discriminate].
      destruct (k <? 1) eqn:Ek; [rewrite outcome_bind_log in H; discriminate|].
      apply Z.ltb_ge in Ek. apply (IH2 k net); assumption.
    + destruct (String.eqb a "--network"); [|apply (IH1 n net); assumption].
      destruct (existsb (String.eqb v) ["4g"; "3g"; "slow-3g"]) eqn:Ev.
      * apply networks_spec in Ev. apply (IH2 n v); assumption.
      * rewrite !outcome_bind_log in H. discriminate.
Qed.

Lemma builds_dichotomy (w : World) :
  (forall fw, In fw FRAMEWORKS -> buildPresent w fw)
  \/ (exists fw, In fw FRAMEWORKS /\ buildMissing w fw).
Proof.
  destruct (forallb (hasBuild w) FRAMEWORKS) eqn:E.
  - left. apply builds_checked, E.
  - right. destruct (existsb (fun fw => negb (hasBuild w fw)) FRAMEWORKS) eqn:E'.
    + apply existsb_exists in E'. destruct E' as [fw [Hin Hb]].
      exists fw. split; [exact Hin|].
      apply hasBuild_missing, negb_true_iff, Hb.
    + exfalso. assert (forallb (hasBuild w) FRAMEWORKS = true); [|congruence].
      apply forallb_forall. intros fw Hin.
      destruct (hasBuild w fw) eqn:Hb; [reflexivity|].
      assert (existsb (fun fw => negb (hasBuild w fw)) FRAMEWORKS = true); [|congruence].
      apply existsb_exists. exists fw. rewrite Hb. auto.
Qed.

(** A run either stops before the measurement, or goes all the way. *)
Lemma main_cases (w : World) (argv : list string) :
  (outcome (main w argv) = Exited 1 /\ Forall isQuiet (trace (main w argv)))
  \/ (exists n net pre,
        outcome (parseArgs (skipn 2 argv) 10 "4g") = Done (n, net)
        /\ (forall fw, In fw FRAMEWORKS -> buildPresent w fw)
        /\ outcome (main w argv) = Done tt
        /\ Forall isQuiet pre
        /\ trace (main w argv)
           = (pre ++ flat_map (turn w n net) FRAMEWORKS
              ++ trace (report w n net (allResults w n net)
                          (failedFrameworks w n net)))%list).
Proof.
  destruct (builds_dichotomy w) as [Hb | [fw [Hin Hm]]].
  - destruct (outcome (parseArgs (skipn 2 argv) 10 "4g")) as [[n net]|c] eqn:Hp.
    + right. destruct (main_measures w argv n net Hp Hb) as [Hd [pre [Hq Ht]]].
      exists n, net, pre. auto.
    + left. destruct (main_refused w argv c Hp) as [He Hl]. split; [exact He|].
      eapply Forall_impl; [|exact Hl]. intros e. apply log_quiet.
  - left. apply (main_aborts w argv fw Hin Hm).
Qed.

Lemma In_commands (t : list Event) (c : string) :
  In c (commands t) <-> In (child_execSync c) t.
Proof.
  unfold commands. rewrite in_flat_map. split.
  - intros [e [He Hin]]. destruct e; cbn in Hin; try contradiction.
    destruct Hin as [<- | []]. exact He.
  - intros H. exists (child_execSync c). split; [exact H | left; reflexivity].
Qed.

Lemma In_writes (t : list Event) (p d : string) :
  In (fs_writeFileSync p d) t -> In (p, d) (writes t).
Proof.
  intros H. unfold writes. apply in_flat_map.
  exists (fs_writeFileSync p d). split; [exact H | left; reflexivity].
Qed.

Lemma In_mkdirs (t : list Event) (p : string) :
  In (fs_mkdirSync p) t -> In p (mkdirs t).
Proof.
  intros H. unfold mkdirs. apply in_flat_map.
  exists (fs_mkdirSync p). split; [exact H | left; reflexivity].
Qed.

Lemma mkdirs_app (t u : list Event) : mkdirs (t ++ u) = (mkdirs t ++ mkdirs u)%list.
Proof. apply flat_map_app. Qed.

Lemma quiet_mkdirs (t : list Event) : Forall isQuiet t -> mkdirs t = [].
Proof.
  induction 1 as [|e t He _ IH]; [reflexivity|].
  destruct e; simpl in *; try contradiction; exact IH.
Qed.

Lemma turns_mkdirs (w : World) (n : Z) (net : string) (fws : list Framework) :
  mkdirs (flat_map (turn w n net) fws) = [].
Proof.
  induction fws as [|fw r IH]; cbn [flat_map]; [reflexivity|].
  rewrite mkdirs_app, IH, app_nil_r. unfold turn, failureLog.
  destruct (attempt w (measureCommand fw n net)); reflexivity.
Qed.

(** The reports open with the probe of the metrics directory, which is
    created when it does not exist; nothing is written before that and no
    directory is created after it. *)
Lemma report_opening (w : World) (n : Z) (net : string)
    (rs : list AggregatedStats) (fs : list string) :
  exists msg rest,
    trace (report w n net rs fs)
    = (console_error msg :: fs_existsSync (JS.path_join (cwd w) "metrics")
       :: (if existsSync w (JS.path_join (cwd w) "metrics") then []
           else [fs_mkdirSync (JS.path_join (cwd w) "metrics")])
       ++ rest)%list
    /\ mkdirs rest = [].
Proof.
  unfold report. cbv zeta.
  destruct (existsSync w (JS.path_join (cwd w) "metrics")); destruct fs;
    io_trace; eexists; eexists; (split; [cbn [app]; reflexivity|]);
    repeat (cbn [mkdirs flat_map app];
            rewrite ?app_nil_r;
            try match goal with
                | |- context [flat_map ?f (trace (logLines ?l) ++ ?t)] =>
                    change (flat_map f (trace (logLines l) ++ t))
                      with (mkdirs (trace (logLines l) ++ t));
                    rewrite mkdirs_app, (quiet_mkdirs _ (logLines_quiet l))
                end);
    reflexivity.
Qed.

(** X3.  A measurement subprocess is only ever launched for a framework of
    [FRAMEWORKS], with the run count and network condition the arguments
    were parsed to, and these are always a run count of at least 1 and one
    of the network conditions 4g, 3g and slow-3g. *)
Theorem subprocess_gets_checked_arguments
    (w : World) (argv : list string) (cmd : string) :
  In (child_execSync cmd) (trace (main w argv)) ->
  exists fw n net,
    In fw FRAMEWORKS
    /\ cmd = measureCommand fw n net
    /\ outcome (parseArgs (skipn 2 argv) 10 "4g") = Done (n, net)
    /\ 1 <= n
    /\ In net networks.
Proof.
  intros H. apply In_commands in H.
  destruct (main_cases w argv) as [[_ Hq] | [n [net [pre [Hp [Hb _]]]]]].
  - rewrite (quiet_commands _ Hq) in H. contradiction.
  - rewrite (main_commands w argv n net Hp Hb) in H.
    apply in_map_iff in H. destruct H as [fw [E Hin]].
    assert (Hv : 1 <= n /\ In net networks).
    { apply (parseArgs_valid (skipn 2 argv) 10 "4g" n net); [lia | |exact Hp].
      left; reflexivity. }
    exists fw, n, net. destruct Hv. auto.
Qed.

Lemma subprocess_gets_checked_arguments_witness :
  In (child_execSync (measureCommand Nuxt 3 "slow-3g"))
     (trace (main sampleWorld
               ["node"; "scripts/measure-final.ts"; "--network"; "slow-3g"; "--runs"; "3"]))
  /\ exists fw n net,
       In fw FRAMEWORKS
       /\ measureCommand Nuxt 3 "slow-3g" = measureCommand fw n net
       /\ 1 <= n
       /\ In net networks.
Proof.
  assert (H : In (child_execSync (measureCommand Nuxt 3 "slow-3g"))
                (trace (main sampleWorld
                          ["node"; "scripts/measure-final.ts";
                           "--network"; "slow-3g"; "--runs"; "3"]))).
  { apply In_commands. vm_compute. right. left. reflexivity. }
  split; [exact H|].
  destruct (subprocess_gets_checked_arguments _ _ _ H)
    as [fw [n [net [H1 [H2 [_ [H3 H4]]]]]]].
  exists fw, n, net. auto.
Defined.


(** X5.  A run touches the file system for writing only under the metrics
    directory of the working directory: every file written is one of the
    three reports there, and the only directory ever created is the metrics
    directory itself, only when it did not exist.  In a run that ends
    normally without a metrics directory, the directory is created once,
    before anything is written. *)
Theorem run_writes_only_under_metrics (w : World) (argv : list string) :
  (forall p d,
     In (fs_writeFileSync p d) (trace (main w argv)) ->
     exists file, In file reportFiles /\ p = metricsPath w file)
  /\ (forall p,
        In (fs_mkdirSync p) (trace (main w argv)) ->
        p = JS.path_join (cwd w) "metrics" /\ existsSync w p = false)
  /\ (outcome (main w argv) = Done tt ->
      existsSync w (JS.path_join (cwd w) "metrics") = false ->
      exists before after,
        trace (main w argv)
        = (before ++ fs_mkdirSync (JS.path_join (cwd w) "metrics") :: after)%list
        /\ writes before = []
        /\ mkdirs before = []
        /\ mkdirs after = []).
Proof.
  destruct (main_cases w argv) as [[He Hq] | [n [net [pre [Hp [Hb [Hd [Hq Ht]]]]]]]].
  - split; [|split].
    + intros p d H. apply In_writes in H.
      rewrite (quiet_writes _ Hq) in H. contradiction.
    + intros p H. apply In_mkdirs in H.
      rewrite (quiet_mkdirs _ Hq) in H. contradiction.
    + intros Hd. congruence.
  - destruct (report_opening w n net (allResults w n net) (failedFrameworks w n net))
      as [msg [rest [Hr Hm]]].
    split; [|split].
    + intros p d H. apply In_writes in H.
      rewrite (main_writes w argv n net Hp Hb), report_writes in H.
      unfold reportFiles.
      destruct H as [E | [E | [E | []]]]; inversion E; subst; eexists;
        (split; [|reflexivity]); simpl; auto.
    + intros p H. apply In_mkdirs in H. rewrite Ht in H.
      rewrite !mkdirs_app, (quiet_mkdirs _ Hq), turns_mkdirs, Hr in H.
      cbn [app mkdirs flat_map] in H.
      destruct (existsSync w (JS.path_join (cwd w) "metrics")) eqn:Ex.
      * cbn [app] in H. change (flat_map _ rest) with (mkdirs rest) in H.
        rewrite Hm in H. contradiction.
      * cbn [app flat_map] in H. change (flat_map _ rest) with (mkdirs rest) in H.
        rewrite Hm in H. destruct H as [<- | []]. auto.
    + intros _ Ex. rewrite Ex in Hr.
      exists (pre ++ flat_map (turn w n net) FRAMEWORKS
              ++ [console_error msg; fs_existsSync (JS.path_join (cwd w) "metrics")])%list,
             rest.
      split; [|split; [|split]].
      * rewrite Ht, Hr. rewrite <- !app_assoc. reflexivity.
      * rewrite !writes_app, (quiet_writes _ Hq), turns_writes. reflexivity.
      * rewrite !mkdirs_app, (quiet_mkdirs _ Hq), turns_mkdirs. reflexivity.
      * exact Hm.
Qed.

Lemma run_writes_only_under_metrics_witness :
  mkdirs (trace (main sampleWorld sampleArgv)) = ["/repo/metrics"]
  /\ exists before after,
       trace (main sampleWorld sampleArgv)
       = (before ++ fs_mkdirSync "/repo/metrics" :: after)%list
       /\ writes before = [].
Proof.
  split; [vm_compute; reflexivity|].
  destruct (run_writes_only_under_metrics sampleWorld sampleArgv) as [_ [_ H]].
  assert (Hd : outcome (main sampleWorld sampleArgv) = Done tt)
    by (vm_compute; reflexivity).
  destruct (H Hd eq_refl) as [before [after [Ht [Hw _]]]].
  exists before, after. split; [exact Ht | exact Hw].
Defined.

(** ** The two tables of the report *)

Lemma table_layout (results : list AggregatedStats) (pg : Page) :
  generateMarkdownTable results pg
  = tableHead pg ++ String.concat "" (map tableRow (pageSorted results pg))
    ++ tableFoot (pageSorted results pg).
Proof.
  unfold generateMarkdownTable. cbv zeta.
  rewrite rows_appended, append_assoc. reflexivity.
Qed.


Lemma filter_perm {A : Type} (f : A -> bool) (l l' : list A) :
  Permutation l l' -> Permutation (filter f l) (filter f l').
Proof.
  induction 1 as [|x l l' _ IH|x y l|l l' l'' _ IH1 _ IH2]; cbn [filter].
  - constructor.
  - destruct (f x); [constructor|]; exact IH.
  - destruct (f x), (f y); try reflexivity. apply perm_swap.
  - etransitivity; eassumption.
Qed.



(** ** What the order of the rows depends on *)

Section SortOrder.

Context {A : Type} (key : A -> Q) (cmp : A -> A -> Q).
Hypothesis cmp_key : forall a b, (cmp a b == key a - key b)%Q.

(** Sorting leaves the records of any one key in the order they had. *)
Lemma insert_stable (k : Q) (x : A) (l : list A) :
  filter (fun a => Qeq_bool (key a) k) (JSArray.insert cmp x l)
  = filter (fun a => Qeq_bool (key a) k) (x :: l).
Proof.
  induction l as [|y r IH]; cbn [JSArray.insert]; [reflexivity|].
  destruct (JS.ltb (cmp y x) 0) eqn:E; [|reflexivity].
  apply (cmp_before key cmp cmp_key) in E.
  cbn [filter] in *. rewrite IH.
  destruct (Qeq_bool (key x) k) eqn:Ex; [|reflexivity].
  destruct (Qeq_bool (key y) k) eqn:Ey; [|reflexivity].
  apply Qeq_bool_iff in Ex, Ey. exfalso. lra.
Qed.

Lemma sort_stable (k : Q) (l : list A) :
  filter (fun a => Qeq_bool (key a) k) (JSArray.sort cmp l)
  = filter (fun a => Qeq_bool (key a) k) l.
Proof.
  induction l as [|x r IH]; cbn [JSArray.sort]; [reflexivity|].
  rewrite insert_stable. cbn [filter]. rewrite IH. reflexivity.
Qed.

(** Two sorted rearrangements of the same records are the same list when
    records of equal key are equal. *)
Lemma sorted_unique (l1 : list A) :
  forall l2,
    StronglySorted (fun a b => key a <= key b)%Q l1 ->
    StronglySorted (fun a b => key a <= key b)%Q l2 ->
    Permutation l1 l2 ->
    (forall a b, In a l1 -> In b l1 -> (key a == key b)%Q -> a = b) ->
    l1 = l2.
Proof.
  induction l1 as [|h1 t1 IH]; intros l2 S1 S2 P Hk.
  - apply Permutation_nil in P. auto.
  - destruct l2 as [|h2 t2];
      [apply Permutation_sym, Permutation_nil in P; discriminate|].
    inversion S1 as [|? ? S1' F1]; subst. inversion S2 as [|? ? S2' F2]; subst.
    rewrite Forall_forall in F1, F2.
    assert (Hh : h1 = h2).
    { assert (I1 : In h1 (h2 :: t2)) by (apply (Permutation_in _ P); left; reflexivity).
      assert (I2 : In h2 (h1 :: t1))
        by (apply (Permutation_in _ (Permutation_sym P)); left; reflexivity).
      destruct I1 as [E | I1]; [auto|]. destruct I2 as [E | I2]; [auto|].
      apply Hk; [left; reflexivity | right; exact I2|].
      apply Qle_antisym; [apply F1, I2 | apply F2, I1]. }
    subst h2. f_equal. apply IH; try assumption.
    + apply (Permutation_cons_inv P).
    + intros a b Ha Hb. apply Hk; right; assumption.
Qed.

End SortOrder.

(** X7.  Ties between rows are broken by the order of the result list: the
    records of a page that share a median raw size appear in the table in
    the order they have in the results, that is, the order in which the
    frameworks were measured. *)
Theorem tied_rows_keep_result_order
    (results : list AggregatedStats) (pg : Page) (size : Q) :
  filter (fun r => Qeq_bool (rawMedian r) size) (pageSorted results pg)
  = filter (fun r => Qeq_bool (rawMedian r) size)
      (filter (fun r => Page_eqb (page r) pg) results).
Proof.
  unfold pageSorted. apply (sort_stable rawMedian).
  intros a b. reflexivity.
Qed.

(** X8.  When no two distinct records of the page share a median raw size,
    the table does not depend on the order of the result list: any
    rearrangement of the results gives the same table. *)
Theorem table_independent_of_result_order
    (results results' : list AggregatedStats) (pg : Page) :
  Permutation results results' ->
  (forall a b,
     In a results -> In b results -> page a = pg -> page b = pg ->
     (rawMedian a == rawMedian b)%Q -> a = b) ->
  generateMarkdownTable results pg = generateMarkdownTable results' pg.
Proof.
  intros P Hk. rewrite !table_layout.
  assert (E : pageSorted results pg = pageSorted results' pg).
  { apply (sorted_unique rawMedian).
    - apply pageSorted_sorted.
    - apply pageSorted_sorted.
    - rewrite !pageSorted_perm. apply filter_perm, P.
    - intros a b Ha Hb.
      apply (Permutation_in _ (pageSorted_perm results pg)), filter_In in Ha.
      apply (Permutation_in _ (pageSorted_perm results pg)), filter_In in Hb.
      destruct Ha as [Ha Pa], Hb as [Hb Pb].
      apply Page_eqb_eq in Pa, Pb. apply Hk; assumption. }
  rewrite E. reflexivity.
Qed.

Lemma table_independent_of_result_order_witness :
  generateMarkdownTable
    [sampleStats "Marko" board 30000; sampleStats "Astro" board 20000] board
  = generateMarkdownTable
      [sampleStats "Astro" board 20000; sampleStats "Marko" board 30000] board.
Proof.
  apply table_independent_of_result_order.
  - apply perm_swap.
  - intros a b [<- | [<- | []]] [<- | [<- | []]] _ _ H;
      try reflexivity; vm_compute in H; discriminate.
Defined.

(** ** The footer of a table *)

(** X9.  The run count and the compression type printed under a table are
    those of its first row, the record of the page with the smallest median
    raw size, whatever the other rows say; when that record has a run count
    of 0 and an empty compression type the footer is the one of an empty
    table (3 runs, gzip). *)
Theorem footer_reports_the_smallest_bundle
    (results : list AggregatedStats) (pg : Page) :
  (exists r, In r results /\ page r = pg) ->
  exists first,
    In first results
    /\ page first = pg
    /\ (forall r, In r results -> page r = pg -> (rawMedian first <= rawMedian r)%Q)
    /\ generateMarkdownTable results pg
       = tableHead pg ++ String.concat "" (map tableRow (pageSorted results pg))
         ++ tableFoot [first]
    /\ ((runs (jsTransferred first) == 0)%Q -> compressionType first = "" ->
        tableFoot [first] = tableFoot []).
Proof.
  intros [r [Hr Hp]].
  pose proof (pageSorted_perm results pg) as P.
  pose proof (pageSorted_sorted results pg) as S.
  assert (Hin : In r (pageSorted results pg)).
  { apply (Permutation_in _ (Permutation_sym P)), filter_In.
    split; [exact Hr | apply Page_eqb_eq, Hp]. }
  rewrite table_layout.
  destruct (pageSorted results pg) as [|first rest]; [contradiction|].
  assert (Hf : In first results /\ page first = pg).
  { assert (H : In first (first :: rest)) by (left; reflexivity).
    apply (Permutation_in _ P), filter_In in H. destruct H as [H1 H2].
    apply Page_eqb_eq in H2. auto. }
  exists first. destruct Hf as [Hf1 Hf2].
  split; [exact Hf1|]. split; [exact Hf2|]. split; [|split].
  - intros x Hx Hxp.
    assert (H : In x (first :: rest)).
    { apply (Permutation_in _ (Permutation_sym P)), filter_In.
      split; [exact Hx | apply Page_eqb_eq, Hxp]. }
    inversion S as [|? ? _ F]; subst. rewrite Forall_forall in F.
    destruct H as [<- | H]; [apply Qle_refl | apply F, H].
  - reflexivity.
  - intros H0 Hc. unfold tableFoot. cbn [hd_error option_map JS.or_number JS.or_string].
    apply Qeq_bool_iff in H0. rewrite H0, Hc. reflexivity.
Qed.

Lemma footer_reports_the_smallest_bundle_witness :
  exists first,
    framework first = "Astro"
    /\ generateMarkdownTable
         [sampleStats "Marko" board 30000; sampleStats "Astro" board 20000] board
       = tableHead board
         ++ String.concat ""
              (map tableRow
                 (pageSorted
                    [sampleStats "Marko" board 30000; sampleStats "Astro" board 20000]
                    board))
         ++ tableFoot [first].
Proof.
  assert (H : exists r,
             In r [sampleStats "Marko" board 30000; sampleStats "Astro" board 20000]
             /\ page r = board)
    by (eexists; split; [left; reflexivity | reflexivity]).
  destruct (footer_reports_the_smallest_bundle _ board H)
    as [first [Hin [_ [Hmin [Ht _]]]]].
  exists first. split; [|exact Ht].
  pose proof (Hmin (sampleStats "Astro" board 20000)
                (or_intror (or_introl eq_refl)) eq_refl) as Hle.
  destruct Hin as [<- | [<- | []]]; [|reflexivity].
  exfalso. vm_compute in Hle. apply Hle. reflexivity.
Defined.

(** ** The failure list *)

Lemma names_distinct : NoDup (map name FRAMEWORKS).
Proof.
  cbn [map FRAMEWORKS name].
  repeat (constructor;
          [cbn [In]; intros H;
           repeat (destruct H as [H | H]; [discriminate H|]); exact H|]).
  constructor.
Qed.

Lemma NoDup_map_injective {A B : Type} (f : A -> B) (l : list A) :
  NoDup (map f l) -> forall a b, In a l -> In b l -> f a = f b -> a = b.
Proof.
  induction l as [|x l IH]; intros N a b Ha Hb E; [contradiction|].
  cbn [map] in N. inversion N as [|? ? Hx N']; subst.
  destruct Ha as [<- | Ha], Hb as [<- | Hb].
  - reflexivity.
  - exfalso. apply Hx. rewrite E. apply in_map, Hb.
  - exfalso. apply Hx. rewrite <- E. apply in_map, Ha.
  - apply IH; assumption.
Qed.

Lemma NoDup_map_filter {A B : Type} (f : A -> B) (g : A -> bool) (l : list A) :
  NoDup (map f l) -> NoDup (map f (filter g l)).
Proof.
  induction l as [|x l IH]; intros N; [constructor|].
  cbn [map] in N. inversion N as [|? ? Hx N']; subst. cbn [filter].
  destruct (g x); [|apply IH, N'].
  cbn [map]. constructor; [|apply IH, N'].
  intros H. apply Hx. apply in_map_iff in H. destruct H as [y [E Hy]].
  apply filter_In in Hy. rewrite <- E. apply in_map, Hy.
Qed.

(** X10.  The failure list the measurement loop ends with is exact: the name
    of a framework is in it if and only if the subprocess of that framework
    failed, and no name is in it twice. *)
Theorem failure_list_is_exact
    (w : World) (n : Z) (net : string)
    (results : list AggregatedStats) (failures : list string) :
  outcome (measureAll w n net) = Done (results, failures) ->
  (forall fw, In fw FRAMEWORKS ->
     (In (name fw) failures
      <-> exists error, attempt w (measureCommand fw n net) = Throw error))
  /\ NoDup failures
  /\ (forall nm, In nm failures -> exists fw, In fw FRAMEWORKS /\ name fw = nm).
Proof.
  rewrite measureAll_spec. cbn [outcome snd]. intros H. inversion H; subst.
  unfold failedFrameworks. split; [|split].
  - intros fw Hin. split.
    + intros Hf. apply in_map_iff in Hf. destruct Hf as [fw' [E Hf]].
      apply filter_In in Hf. destruct Hf as [Hin' Hf].
      assert (fw' = fw)
        by (apply (NoDup_map_injective name FRAMEWORKS names_distinct); assumption).
      subst fw'. unfold failed in Hf.
      destruct (attempt w (measureCommand fw n net)) as [rs|error];
        [discriminate | exists error; reflexivity].
    + intros [error He]. apply (failed_recorded w n net fw error Hin He).
  - apply NoDup_map_filter, names_distinct.
  - intros nm Hnm. apply in_map_iff in Hnm. destruct Hnm as [fw [E Hf]].
    apply filter_In in Hf. exists fw. split; [apply Hf | exact E].
Qed.

Lemma failure_list_is_exact_witness :
  outcome (measureAll sampleWorld 10 "4g")
  = Done (allResults sampleWorld 10 "4g", ["Nuxt"])
  /\ NoDup ["Nuxt"]
  /\ ~ exists error, attempt sampleWorld (measureCommand Marko 10 "4g") = Throw error.
Proof.
  assert (H : outcome (measureAll sampleWorld 10 "4g")
              = Done (allResults sampleWorld 10 "4g", ["Nuxt"]))
    by (vm_compute; reflexivity).
  destruct (failure_list_is_exact sampleWorld 10 "4g" _ _ H) as [Hiff [Hn _]].
  split; [exact H|]. split; [exact Hn|].
  intros He.
  assert (Hin : In Marko FRAMEWORKS) by (do 9 right; left; reflexivity).
  apply (Hiff Marko Hin) in He. destruct He as [E | []]. discriminate E.
Defined.

(** ** A run in which every subprocess fails *)

Lemma filter_all {A : Type} (f : A -> bool) (l : list A) :
  (forall x, In x l -> f x = true) -> filter f l = l.
Proof.
  induction l as [|a l IH]; intros H; [reflexivity|]. cbn [filter].
  rewrite (H a (or_introl eq_refl)), IH; [reflexivity|].
  intros x Hx. apply H. right; exact Hx.
Qed.

Lemma flat_map_nil {A B : Type} (f : A -> list B) (l : list A) :
  (forall x, In x l -> f x = []) -> flat_map f l = [].
Proof.
  induction l as [|a l IH]; intros H; [reflexivity|]. cbn [flat_map].
  rewrite (H a (or_introl eq_refl)), IH; [reflexivity|].
  intros x Hx. apply H. right; exact Hx.
Qed.

(** X11.  When the subprocess of every framework fails, the run still ends
    normally and writes the three reports: the JSON results hold no record
    and their metadata fall back to the network condition of the command
    line, the Chrome version "unknown" and the compression type "gzip"; the
    markdown report is the one for no result with every framework listed as
    failed; the legacy summary has two empty pages. *)
Theorem run_with_every_subprocess_failing
    (w : World) (argv : list string) (n : Z) (net : string) :
  outcome (parseArgs (skipn 2 argv) 10 "4g") = Done (n, net) ->
  (forall fw, In fw FRAMEWORKS -> buildPresent w fw) ->
  (forall fw, In fw FRAMEWORKS ->
     exists error, attempt w (measureCommand fw n net) = Throw error) ->
  outcome (main w argv) = Done tt
  /\ commands (trace (main w argv))
     = map (fun fw => measureCommand fw n net) FRAMEWORKS
  /\ writes (trace (main w argv))
     = [ (metricsPath w "final-measurements.json",
          JSON.stringify
            (JSON.Obj [
               ("metadata", JSON.Obj [
                  ("timestamp", JSON.Str (toISOString_now w 0));
                  ("runsPerPage", JSON.Num (inject_Z n));
                  ("measurementType", JSON.Str "cold-load");
                  ("networkCondition", JSON.Str net);
                  ("chromeVersion", JSON.Str "unknown");
                  ("compressionType", JSON.Str "gzip") ]);
               ("results", JSON.Arr []) ]));
         (metricsPath w "final-measurements.md",
          markdownReport (toISOString_now w 1) n [] (map name FRAMEWORKS));
         (metricsPath w "bundle-summary.json",
          JSON.stringify
            (JSON.Obj [
               ("timestamp", JSON.Str (toISOString_now w 2));
               ("note", JSON.Str
                  "Bundle sizes use raw (uncompressed) as primary, compressed in parentheses");
               ("boardPage", JSON.Arr []);
               ("homePage", JSON.Arr []) ])) ].
Proof.
  intros Hp Hb Hf.
  assert (Er : allResults w n net = []).
  { unfold allResults. apply flat_map_nil. intros fw Hin.
    destruct (Hf fw Hin) as [error He]. unfold recordsOf. rewrite He. reflexivity. }
  assert (Ef : failedFrameworks w n net = map name FRAMEWORKS).
  { unfold failedFrameworks. f_equal. apply filter_all. intros fw Hin.
    destruct (Hf fw Hin) as [error He]. unfold failed. rewrite He. reflexivity. }
  destruct (main_measures w argv n net Hp Hb) as [Hd _].
  split; [exact Hd|]. split; [apply main_commands; assumption|].
  rewrite (main_writes w argv n net Hp Hb), report_writes, Er, Ef. reflexivity.
Qed.

Lemma run_with_every_subprocess_failing_witness :
  outcome (main failingWorld sampleArgv) = Done tt
  /\ List.length (commands (trace (main failingWorld sampleArgv))) = 12%nat
  /\ map fst (writes (trace (main failingWorld sampleArgv)))
     = map (metricsPath failingWorld) reportFiles.
Proof.
  assert (Hp : outcome (parseArgs (skipn 2 sampleArgv) 10 "4g") = Done (10, "4g"))
    by reflexivity.
  assert (Hb : forall fw, In fw FRAMEWORKS -> buildPresent failingWorld fw)
    by (apply builds_checked; vm_compute; reflexivity).
  assert (Hf : forall fw, In fw FRAMEWORKS ->
                 exists error,
                   attempt failingWorld (measureCommand fw 10 "4g") = Throw error)
    by (intros fw _; eexists; reflexivity).
  destruct (run_with_every_subprocess_failing failingWorld sampleArgv 10 "4g" Hp Hb Hf)
    as [H1 [H2 H3]].
  split; [exact H1|]. split; [rewrite H2; reflexivity|].
  rewrite H3. reflexivity.
Defined.

(** ** Words around the flags *)

Lemma parseArgs_skip (pre : list string) :
  (forall a, In a pre -> ~ isFlag a) ->
  forall args n net, parseArgs (pre ++ args) n net = parseArgs args n net.
Proof.
  induction pre as [|a pre IH]; intros Hpre args n net; [reflexivity|].
  assert (Ha : ~ isFlag a) by (apply Hpre; left; reflexivity).
  assert (IH' : parseArgs (pre ++ args) n net = parseArgs args n net)
    by (apply IH; intros x Hx; apply Hpre; right; exact Hx).
  cbn [app]. destruct (pre ++ args)%list as [|v rest] eqn:E.
  - rewrite <- IH'. reflexivity.
  - rewrite parseArgs_step.
    destruct (String.eqb a "--runs") eqn:E1.
    { apply String.eqb_eq in E1. exfalso. apply Ha. left. exact E1. }
    destruct (String.eqb a "--network") eqn:E2.
    { apply String.eqb_eq in E2. exfalso. apply Ha. right. exact E2. }
    exact IH'.
Qed.

Lemma parseArgs_plain (args : list string) (n : Z) (net : string) :
  (forall a, In a args -> ~ isFlag a) -> parseArgs args n net = ret (n, net).
Proof.
  intros H. rewrite <- (app_nil_r args). apply (parseArgs_skip args H []).
Qed.

(** X12.  A flag in last position has no value and is passed over without
    an error: when the words before the last one are no flags, the run is
    the one with the defaults, 10 runs and 4g, whatever the last word is,
    [--runs] and [--network] included. *)
Theorem flag_without_value_is_ignored
    (w : World) (argv pre : list string) (last : string) :
  skipn 2 argv = (pre ++ [last])%list ->
  (forall a, In a pre -> ~ isFlag a) ->
  main w argv = runWith w 10 "4g".
Proof.
  intros E Hpre. unfold main. cbv zeta.
  rewrite E, (parseArgs_skip pre Hpre). cbn [parseArgs].
  rewrite bind_ret. reflexivity.
Qed.

Lemma flag_without_value_is_ignored_witness :
  main sampleWorld ["node"; "scripts/measure-final.ts"; "verbose"; "--runs"]
  = runWith sampleWorld 10 "4g".
Proof.
  apply (flag_without_value_is_ignored sampleWorld _ ["verbose"] "--runs").
  - reflexivity.
  - intros a [<- | []] [H | H]; discriminate H.
Defined.

(** X13.  A flag followed by a value that is accepted sets its parameter,
    and only that one; words that are no flags are passed over wherever
    they stand.  With words that are no flags before, between and after:
    [--runs v] alone gives the run with the number [parseInt] reads from [v]
    and the network condition 4g, [--network c] alone the run with 10 runs
    and [c], and both together, in either order, the run with both. *)
Theorem accepted_flags_set_the_run
    (w : World) (argv pre mid post : list string) (v c : string) (k : Z) :
  (forall a, In a pre -> ~ isFlag a) ->
  (forall a, In a mid -> ~ isFlag a) ->
  (forall a, In a post -> ~ isFlag a) ->
  JS.parseInt v = Some k -> 1 <= k -> In c networks ->
  (skipn 2 argv = (pre ++ "--runs" :: v :: post)%list ->
   main w argv = runWith w k "4g")
  /\ (skipn 2 argv = (pre ++ "--network" :: c :: post)%list ->
      main w argv = runWith w 10 c)
  /\ (skipn 2 argv = (pre ++ "--runs" :: v :: mid ++ "--network" :: c :: post)%list ->
      main w argv = runWith w k c)
  /\ (skipn 2 argv = (pre ++ "--network" :: c :: mid ++ "--runs" :: v :: post)%list ->
      main w argv = runWith w k c).
Proof.
  intros Hpre Hmid Hpost Hv Hk Hc.
  assert (Ek : (k <? 1) = false) by (apply Z.ltb_ge; exact Hk).
  assert (Ec : existsb (String.eqb c) ["4g"; "3g"; "slow-3g"] = true)
    by (apply networks_spec; exact Hc).
  assert (Runs : forall rest n net,
             parseArgs ("--runs" :: v :: rest) n net = parseArgs rest k net).
  { intros rest n net. rewrite parseArgs_step. cbn [String.eqb Ascii.eqb Bool.eqb].
    rewrite Hv, Ek. reflexivity. }
  assert (Net : forall rest n net,
            parseArgs ("--network" :: c :: rest) n net = parseArgs rest n c).
  { intros rest n net. rewrite parseArgs_step. cbn [String.eqb Ascii.eqb Bool.eqb].
    rewrite Ec. reflexivity. }
  unfold main. cbv zeta.
  split; [|split; [|split]]; intros ->.
  - rewrite (parseArgs_skip pre Hpre), Runs, (parseArgs_plain post _ _ Hpost), bind_ret.
    reflexivity.
  - rewrite (parseArgs_skip pre Hpre), Net, (parseArgs_plain post _ _ Hpost), bind_ret.
    reflexivity.
  - rewrite (parseArgs_skip pre Hpre), Runs, (parseArgs_skip mid Hmid), Net,
      (parseArgs_plain post _ _ Hpost), bind_ret.
    reflexivity.
  - rewrite (parseArgs_skip pre Hpre), Net, (parseArgs_skip mid Hmid), Runs,
      (parseArgs_plain post _ _ Hpost), bind_ret.
    reflexivity.
Qed.

Lemma accepted_flags_set_the_run_witness :
  main sampleWorld
    ["node"; "scripts/measure-final.ts"; "--network"; "3g"; "--runs"; "5x"]
  = runWith sampleWorld 5 "3g".
Proof.
  assert (H : forall a, In a (@nil string) -> ~ isFlag a) by (intros a []).
  assert (Hc : In "3g" networks) by (right; left; reflexivity).
  assert (Hk : 1 <= 5) by lia.
  exact (proj2 (proj2 (proj2
           (accepted_flags_set_the_run sampleWorld
              ["node"; "scripts/measure-final.ts"; "--network"; "3g"; "--runs"; "5x"]
              [] [] [] "5x" "3g" 5 H H H eq_refl Hk Hc))) eq_refl).
Defined.

(** X14.  When a flag is given twice with accepted values, the later value
    is the one the run uses. *)
Theorem later_flag_overrides_earlier
    (w : World) (argv pre mid post : list string) (v1 v2 c1 c2 : string) (k1 k2 : Z) :
  (forall a, In a pre -> ~ isFlag a) ->
  (forall a, In a mid -> ~ isFlag a) ->
  (forall a, In a post -> ~ isFlag a) ->
  JS.parseInt v1 = Some k1 -> 1 <= k1 ->
  JS.parseInt v2 = Some k2 -> 1 <= k2 ->
  In c1 networks -> In c2 networks ->
  (skipn 2 argv = (pre ++ "--runs" :: v1 :: mid ++ "--runs" :: v2 :: post)%list ->
   main w argv = runWith w k2 "4g")
  /\ (skipn 2 argv
      = (pre ++ "--network" :: c1 :: mid ++ "--network" :: c2 :: post)%list ->
      main w argv = runWith w 10 c2).
Proof.
  intros Hpre Hmid Hpost Hv1 Hk1 Hv2 Hk2 Hc1 Hc2.
  apply Z.ltb_ge in Hk1, Hk2. apply networks_spec in Hc1, Hc2.
  unfold main. cbv zeta. split; intros ->.
  - rewrite (parseArgs_skip pre Hpre), parseArgs_step.
    cbn [String.eqb Ascii.eqb Bool.eqb]. rewrite Hv1, Hk1.
    rewrite (parseArgs_skip mid Hmid), parseArgs_step.
    cbn [String.eqb Ascii.eqb Bool.eqb]. rewrite Hv2, Hk2.
    rewrite (parseArgs_plain post _ _ Hpost), bind_ret. reflexivity.
  - rewrite (parseArgs_skip pre Hpre), parseArgs_step.
    cbn [String.eqb Ascii.eqb Bool.eqb]. rewrite Hc1.
    rewrite (parseArgs_skip mid Hmid), parseArgs_step.
    cbn [String.eqb Ascii.eqb Bool.eqb]. rewrite Hc2.
    rewrite (parseArgs_plain post _ _ Hpost), bind_ret. reflexivity.
Qed.

Lemma later_flag_overrides_earlier_witness :
  main sampleWorld
    ["node"; "scripts/measure-final.ts"; "--runs"; "3"; "--runs"; "7"]
  = runWith sampleWorld 7 "4g".
Proof.
  assert (H : forall a, In a (@nil string) -> ~ isFlag a) by (intros a []).
  assert (Hc : In "4g" networks) by (left; reflexivity).
  assert (H3 : 1 <= 3) by lia.
  assert (H7 : 1 <= 7) by lia.
  exact (proj1
           (later_flag_overrides_earlier sampleWorld
              ["node"; "scripts/measure-final.ts"; "--runs"; "3"; "--runs"; "7"]
              [] [] [] "3" "7" "4g" "4g" 3 7 H H H eq_refl H3 eq_refl H7 Hc Hc)
           eq_refl).
Defined.
